(** * qci: a Python client for the Qiagen Clinical Insight REST API

    A shallow embedding of [qci/classes.py] (the class [DataPackage]) and of
    the functions of [qci/api.py] that the specification makes statements
    about ([get_access_token], [validate_datapackage], [upload_datapackage],
    [get_report_pdf], [list_tests]), followed by those statements, and of
    [check_submission_status], [get_test_result_xml] and
    [get_test_product_profiles] with further properties of all of them.  Not
    embedded: [share_test], whose request carries a body, and
    [upload_datapackages], which maps [upload_datapackage] over a thread
    pool.

    Python values are an inductive type, objects live in a heap of instance
    dictionaries, and a function body is a computation in a state and
    exception monad over a [World]: the heap, the files on disk, the HTTP
    requests sent so far, and the surroundings the program cannot control
    (the remote server, the clock, the working directory).  The library
    functions the program calls on strings ([urllib.parse.urljoin],
    [os.path.abspath], [strftime]) are written out after CPython. *)

From stdpp Require Import gmap strings list pretty.
From Stdlib Require Import ZArith NArith Ascii.

Set Warnings "-register-all".
Local Open Scope string_scope.

(** ** Python values *)

Definition loc := nat.

(** The values the program handles: what [json] decoding yields (None, bool,
    int, float, str, list, dict with str keys), references to instances of
    [DataPackage] (the only class of the package) and their bound methods.  A
    float is kept as the 64 bits of its IEEE 754 double. *)
Inductive pyval : Type :=
| PyNone
| PyBool (b : bool)
| PyInt (z : Z)
| PyFloat (bits : Z)
| PyStr (s : string)
| PyList (l : list pyval)
| PyDict (m : gmap string pyval)
| PyRef (l : loc)
| PyMethod (self : loc) (name : string).

(** Truth value testing, as [if x:] and [not x] do it.  [DataPackage] defines
    neither [__bool__] nor [__len__], so its instances are true. *)
Definition truthy (v : pyval) : bool :=
  match v with
  | PyNone => false
  | PyBool b => b
  | PyInt z => negb (z =? 0)%Z
  | PyFloat bits => negb ((bits =? 0)%Z || (bits =? 2 ^ 63)%Z)
  | PyStr s => negb (s =? "")
  | PyList l => match l with [] => false | _ => true end
  | PyDict m => negb (bool_decide (m = ∅))
  | PyRef _ => true
  | PyMethod _ _ => true
  end.

Definition type_name (v : pyval) : string :=
  match v with
  | PyNone => "NoneType"
  | PyBool _ => "bool"
  | PyInt _ => "int"
  | PyFloat _ => "float"
  | PyStr _ => "str"
  | PyList _ => "list"
  | PyDict _ => "dict"
  | PyRef _ => "DataPackage"
  | PyMethod _ _ => "method"
  end.

(** ** Exceptions *)

Inductive exn : Type :=
| ValueError (msg : string)
| TypeError (msg : string)
| AttributeError (msg : string)
| KeyError (key : string)
| JSONDecodeError
| RequestException (msg : string)
| OSError (path : string)
| SystemError (msg : string).

Inductive result (A : Type) : Type :=
| Ok (a : A)
| Raise (e : exn).
Arguments Ok {A} a.
Arguments Raise {A} e.

(** ** The world *)

Record Request := {
  req_method : string;
  req_url : string;
  req_params : gmap string string;
  req_headers : gmap string string;
  req_files : gmap string pyval
}.

Record Response := {
  status_code : Z;
  content : string;
  (** what [resp.json()] decodes [content] to; [None] when it is not JSON *)
  json : option pyval
}.

Record Date := { year : N; month : N; day : N }.

Record World := {
  (** instance dictionaries of the live [DataPackage] objects *)
  heap : gmap loc (gmap string pyval);
  (** file contents by absolute path *)
  disk : gmap string string;
  (** the HTTP requests performed, oldest first *)
  sent : list Request;
  (** the remote service: its answer to a request, given the earlier ones *)
  server : list Request -> Request -> result Response;
  (** [datetime.now()] *)
  today : Date;
  (** [os.getcwd()] *)
  getcwd : string;
  (** the descriptor and path [tempfile.mkstemp(prefix, suffix)] picks *)
  mkstemp_pick : string -> string -> Z * string;
  (** whether a file can be created or truncated at a path *)
  writable : string -> bool;
  (** [repr] of the values whose text the model does not spell out *)
  repr : pyval -> string
}.

Definition set_heap (h : gmap loc (gmap string pyval)) (w : World) : World :=
  {| heap := h; disk := disk w; sent := sent w; server := server w;
     today := today w; getcwd := getcwd w; mkstemp_pick := mkstemp_pick w;
     writable := writable w; repr := repr w |}.

Definition set_disk (d : gmap string string) (w : World) : World :=
  {| heap := heap w; disk := d; sent := sent w; server := server w;
     today := today w; getcwd := getcwd w; mkstemp_pick := mkstemp_pick w;
     writable := writable w; repr := repr w |}.

Definition set_sent (s : list Request) (w : World) : World :=
  {| heap := heap w; disk := disk w; sent := s; server := server w;
     today := today w; getcwd := getcwd w; mkstemp_pick := mkstemp_pick w;
     writable := writable w; repr := repr w |}.

(** ** The monad of function bodies *)

Definition M (A : Type) : Type := World -> result A * World.

Definition ret {A} (a : A) : M A := fun w => (Ok a, w).

Definition raise {A} (e : exn) : M A := fun w => (Raise e, w).

Definition bind {A B} (m : M A) (k : A -> M B) : M B :=
  fun w =>
    match m w with
    | (Ok a, w') => k a w'
    | (Raise e, w') => (Raise e, w')
    end.

Declare Scope py_scope.
Delimit Scope py_scope with py.
Notation "x <- c ;; k" := (bind c (fun x => k))
  (at level 100, c at next level, right associativity) : py_scope.
Local Open Scope py_scope.

Definition get_world : M World := fun w => (Ok w, w).

Definition modify (f : World -> World) : M unit := fun w => (Ok tt, f w).

Definition lift {A} (r : result A) : M A := fun w => (r, w).

(** ** Calls

    A call site passes positional and keyword arguments; they are bound to
    the parameter names of the callee, in the order CPython does it.  The
    exception is always a [TypeError]: its text names the cause and is not
    CPython's wording. *)

Record Args := { positional : list pyval; keywords : list (string * pyval) }.

Definition no_args : Args := {| positional := []; keywords := [] |}.

Fixpoint bind_positional (params : list string) (pos : list pyval)
    (acc : gmap string pyval) : gmap string pyval * list pyval :=
  match params, pos with
  | p :: params', v :: pos' => bind_positional params' pos' (<[p := v]> acc)
  | _, _ => (acc, pos)
  end.

Fixpoint bind_keywords (params : list string) (kw : list (string * pyval))
    (acc : gmap string pyval) : result (gmap string pyval) :=
  match kw with
  | [] => Ok acc
  | (k, v) :: kw' =>
      if bool_decide (k ∈ params) then
        match acc !! k with
        | Some _ => Raise (TypeError ("got multiple values for argument '" +:+ k +:+ "'"))
        | None => bind_keywords params kw' (<[k := v]> acc)
        end
      else Raise (TypeError ("got an unexpected keyword argument '" +:+ k +:+ "'"))
  end.

Fixpoint bind_defaults (params : list string) (defaults : gmap string pyval)
    (acc : gmap string pyval) : result (gmap string pyval) :=
  match params with
  | [] => Ok acc
  | p :: params' =>
      match acc !! p, defaults !! p with
      | Some _, _ => bind_defaults params' defaults acc
      | None, Some d => bind_defaults params' defaults (<[p := d]> acc)
      | None, None => Raise (TypeError ("missing required argument: '" +:+ p +:+ "'"))
      end
  end.

Definition bind_args (params : list string) (defaults : gmap string pyval)
    (args : Args) : result (gmap string pyval) :=
  let '(acc, rest) := bind_positional params (positional args) ∅ in
  match bind_keywords params (keywords args) acc with
  | Raise e => Raise e
  | Ok acc =>
      match rest with
      | _ :: _ => Raise (TypeError "too many positional arguments")
      | [] => bind_defaults params defaults acc
      end
  end.

(** The value bound to a parameter; [bind_args] binds every parameter. *)
Definition arg (bound : gmap string pyval) (name : string) : pyval :=
  default PyNone (bound !! name).

(** ** Builtins *)

(** [str(v)].  An instance answers through its class's [__str__], which is
    passed as [dunder_str]; [str] insists that it returns a str. *)
Definition py_str (dunder_str : loc -> M pyval) (v : pyval) : M string :=
  match v with
  | PyNone => ret "None"
  | PyBool b => ret (if b then "True" else "False")
  | PyInt z => ret (pretty z)
  | PyStr s => ret s
  | PyRef l =>
      r <- dunder_str l ;;
      match r with
      | PyStr s => ret s
      | _ => raise (TypeError ("__str__ returned non-string (type " +:+ type_name r +:+ ")"))
      end
  | PyFloat _ | PyList _ | PyDict _ | PyMethod _ _ =>
      w <- get_world ;; ret (repr w v)
  end.

(** [s + v] and [s += v] for a str [s]. *)
Definition str_add (s : string) (v : pyval) : M pyval :=
  match v with
  | PyStr t => ret (PyStr (s +:+ t))
  | _ => raise (TypeError ("can only concatenate str (not '" +:+ type_name v +:+ "') to str"))
  end.

(** [container[key]] for a str key. *)
Definition py_getitem (container : pyval) (key : string) : M pyval :=
  match container with
  | PyDict m =>
      match m !! key with
      | Some v => ret v
      | None => raise (KeyError key)
      end
  | PyStr _ => raise (TypeError "string indices must be integers")
  | PyList _ => raise (TypeError "list indices must be integers or slices, not str")
  | _ => raise (TypeError ("'" +:+ type_name container +:+ "' object is not subscriptable"))
  end.

(** ** qci/classes.py *)

Module DataPackage.

Definition methods : list string := ["__init__"; "to_xml"; "validate"; "__str__"].

(** The instance dictionary of a live object. *)
Definition instance_dict (self : loc) : M (gmap string pyval) :=
  fun w =>
    match heap w !! self with
    | Some d => (Ok d, w)
    | None => (Raise (SystemError "no object at this reference"), w)
    end.

(** Lookup of a name that is not a property: the instance dictionary, then
    the functions of the class, then AttributeError. *)
Definition getattr_plain (self : loc) (name : string) : M pyval :=
  d <- instance_dict self ;;
  match d !! name with
  | Some v => ret v
  | None =>
      if bool_decide (name ∈ methods) then ret (PyMethod self name)
      else raise (AttributeError ("'DataPackage' object has no attribute '" +:+ name +:+ "'"))
  end.

(** [@property access_token]. *)
Definition access_token (self : loc) : M pyval :=
  getattr_plain self "_access_token".

(** [self.name]: the class's one property comes before the instance
    dictionary. *)
Definition getattr (self : loc) (name : string) : M pyval :=
  if name =? "access_token" then access_token self
  else getattr_plain self name.

(** [self.name = v]; the property has no setter. *)
Definition setattr (self : loc) (name : string) (v : pyval) : M unit :=
  if name =? "access_token" then
    raise (AttributeError "property 'access_token' of 'DataPackage' object has no setter")
  else
    d <- instance_dict self ;;
    modify (fun w => set_heap (<[self := <[name := v]> d]> (heap w)) w).

Definition __init__ (self : loc) (access_token primary_id secondary_id : pyval) : M pyval :=
  _ <- setattr self "_access_token" access_token ;;
  _ <- setattr self "_primary_id" primary_id ;;
  _ <- setattr self "_secondary_id" secondary_id ;;
  ret PyNone.

Definition to_xml (self : loc) : M pyval :=
  let datapackage_xml := "" in
  primary_id <- getattr self "_primary_id" ;;
  datapackage_xml <- str_add datapackage_xml primary_id ;;
  ret datapackage_xml.

Definition __str__ (self : loc) : M pyval :=
  getattr self "primary_id".

Definition str : pyval -> M string := py_str __str__.

(** [template.format(v)] for a template with text before and after its one
    replacement field. *)
Definition format (before : string) (v : pyval) (after : string) : M string :=
  s <- str v ;; ret (before +:+ s +:+ after).

Definition no_token_message (self : loc) : M string :=
  primary_id <- getattr self "primary_id" ;;
  format "DataPackage for ID " primary_id " failed validation (no access token set)".

Definition validate (self : loc) (debug : pyval) : M pyval :=
  token <- getattr self "access_token" ;;
  if negb (truthy token) then
    if truthy debug then
      msg <- no_token_message self ;; raise (ValueError msg)
    else ret (PyBool false)
  else
  token <- getattr self "access_token" ;;
  if negb (truthy token) then
    if truthy debug then
      msg <- no_token_message self ;; raise (ValueError msg)
    else ret (PyBool false)
  else ret PyNone.

(** [DataPackage(...)]: the arguments are bound to the parameters of
    [__init__], none of which has a default, and a new object is
    initialised.  A call that fails to bind leaves no object behind (CPython
    allocates one first and drops it). *)
Definition new (args : Args) : M pyval :=
  bound <- lift (bind_args ["access_token"; "primary_id"; "secondary_id"] ∅ args) ;;
  self <- (fun w =>
             let l := fresh (dom (heap w)) in
             (Ok l, set_heap (<[l := ∅]> (heap w)) w)) ;;
  _ <- __init__ self (arg bound "access_token") (arg bound "primary_id")
         (arg bound "secondary_id") ;;
  ret (PyRef self).

(** Calling a bound method. *)
Definition call (self : loc) (name : string) (args : Args) : M pyval :=
  if name =? "to_xml" then
    _ <- lift (bind_args [] ∅ args) ;; to_xml self
  else if name =? "validate" then
    bound <- lift (bind_args ["debug"] {[ "debug" := PyBool false ]} args) ;;
    validate self (arg bound "debug")
  else if name =? "__str__" then
    _ <- lift (bind_args [] ∅ args) ;; __str__ self
  else if name =? "__init__" then
    bound <- lift (bind_args ["access_token"; "primary_id"; "secondary_id"] ∅ args) ;;
    __init__ self (arg bound "access_token") (arg bound "primary_id")
      (arg bound "secondary_id")
  else raise (TypeError ("'" +:+ name +:+ "' is not a method of DataPackage")).

End DataPackage.

(** [isinstance(v, DataPackage)]: the heap holds instances of no other
    class. *)
Definition isinstance_DataPackage (v : pyval) : bool :=
  match v with
  | PyRef _ => true
  | _ => false
  end.

(** [v.name].  For a value of a builtin type this covers the names its type
    does not define ([write] and [read] on an int are the program's two
    such lookups): they raise AttributeError. *)
Definition py_getattr (v : pyval) (name : string) : M pyval :=
  match v with
  | PyRef l => DataPackage.getattr l name
  | _ => raise (AttributeError ("'" +:+ type_name v +:+ "' object has no attribute '" +:+ name +:+ "'"))
  end.

(** [f(args)]. *)
Definition py_call (f : pyval) (args : Args) : M pyval :=
  match f with
  | PyMethod self name => DataPackage.call self name args
  | _ => raise (TypeError ("'" +:+ type_name f +:+ "' object is not callable"))
  end.

(** ** Strings

    The methods of Python's str that the library code below relies on, for
    a one-character separator. *)

Module Str.

Definition chr (n : nat) : ascii := ascii_of_nat n.

Definition ord (c : ascii) : nat := nat_of_ascii c.

(** [c in s] *)
Fixpoint contains (c : ascii) (s : string) : bool :=
  match s with
  | "" => false
  | String a s' => Ascii.eqb a c || contains c s'
  end.

(** [s.split(c, 1)] when [c] occurs in [s]: the text before its first
    occurrence and the text after it. *)
Fixpoint partition (c : ascii) (s : string) : option (string * string) :=
  match s with
  | "" => None
  | String a s' =>
      if Ascii.eqb a c then Some ("", s')
      else match partition c s' with
           | Some (l, r) => Some (String a l, r)
           | None => None
           end
  end.

(** [s.split(c)] *)
Fixpoint split (c : ascii) (s : string) : list string :=
  match s with
  | "" => [""]
  | String a s' =>
      if Ascii.eqb a c then "" :: split c s'
      else match split c s' with
           | x :: xs => String a x :: xs
           | [] => [String a ""]
           end
  end.

(** [sep.join(l)] *)
Fixpoint join (sep : string) (l : list string) : string :=
  match l with
  | [] => ""
  | [x] => x
  | x :: xs => x +:+ sep +:+ join sep xs
  end.

(** The characters of [s] that do not satisfy [p], in order. *)
Fixpoint remove (p : ascii -> bool) (s : string) : string :=
  match s with
  | "" => ""
  | String a s' => if p a then remove p s' else String a (remove p s')
  end.

Fixpoint lstrip (p : ascii -> bool) (s : string) : string :=
  match s with
  | "" => ""
  | String a s' => if p a then lstrip p s' else s
  end.

Definition rstrip (p : ascii -> bool) (s : string) : string :=
  String.rev (lstrip p (String.rev s)).

Definition strip (p : ascii -> bool) (s : string) : string :=
  rstrip p (lstrip p s).

(** The longest prefix whose characters satisfy [p], and the rest. *)
Fixpoint span (p : ascii -> bool) (s : string) : string * string :=
  match s with
  | "" => ("", "")
  | String a s' =>
      if p a then let '(l, r) := span p s' in (String a l, r)
      else ("", s)
  end.

Fixpoint all (p : ascii -> bool) (s : string) : bool :=
  match s with
  | "" => true
  | String a s' => p a && all p s'
  end.

Definition is_upper (c : ascii) : bool := (65 <=? ord c)%nat && (ord c <=? 90)%nat.

Definition is_lower (c : ascii) : bool := (97 <=? ord c)%nat && (ord c <=? 122)%nat.

Definition is_digit (c : ascii) : bool := (48 <=? ord c)%nat && (ord c <=? 57)%nat.

(** [c.isascii() and c.isalpha()] *)
Definition is_alpha (c : ascii) : bool := is_upper c || is_lower c.

(** [s.lower()] on ASCII text *)
Fixpoint lower (s : string) : string :=
  match s with
  | "" => ""
  | String a s' => String (if is_upper a then chr (ord a + 32) else a) (lower s')
  end.

Definition startswith (p s : string) : bool := String.prefix p s.

Fixpoint drop (n : nat) (s : string) : string :=
  match n, s with
  | S n', String _ s' => drop n' s'
  | _, _ => s
  end.

End Str.

(** ** urllib.parse

    [urlsplit], [urlparse], [urlunparse] and [urljoin] after CPython 3.12.
    Left out: the checks of the host ([_checknetloc], bracketed IPv6 hosts),
    which reject malformed hosts and change no result. *)

Record ParseResult := {
  url_scheme : string;
  url_netloc : string;
  url_path : string;
  url_params : string;
  url_query : string;
  url_fragment : string
}.

Definition uses_relative : list string :=
  [""; "ftp"; "http"; "gopher"; "nntp"; "imap"; "wais"; "file"; "https";
   "shttp"; "mms"; "prospero"; "rtsp"; "rtsps"; "rtspu"; "sftp"; "svn";
   "svn+ssh"; "ws"; "wss"].

Definition uses_netloc : list string :=
  [""; "ftp"; "http"; "gopher"; "nntp"; "telnet"; "imap"; "wais"; "file";
   "mms"; "https"; "shttp"; "snews"; "prospero"; "rtsp"; "rtsps"; "rtspu";
   "rsync"; "svn"; "svn+ssh"; "sftp"; "nfs"; "git"; "git+ssh"; "ws"; "wss"].

Definition uses_params : list string :=
  [""; "ftp"; "hdl"; "prospero"; "http"; "imap"; "https"; "shttp"; "rtsp";
   "rtsps"; "rtspu"; "sip"; "sips"; "mms"; "sftp"; "tel"].

Definition is_scheme_char (c : ascii) : bool :=
  Str.is_alpha c || Str.is_digit c || Str.contains c "+-.".

(** [_WHATWG_C0_CONTROL_OR_SPACE] *)
Definition is_c0_control_or_space (c : ascii) : bool := (Str.ord c <=? 32)%nat.

(** [_UNSAFE_URL_BYTES_TO_REMOVE]: tab, carriage return, line feed *)
Definition is_unsafe_url_byte (c : ascii) : bool :=
  (Str.ord c =? 9)%nat || (Str.ord c =? 13)%nat || (Str.ord c =? 10)%nat.

(** The scheme in front of the first colon, when the text before the colon
    starts with a letter and holds scheme characters only. *)
Definition split_scheme (url : string) : option (string * string) :=
  match url with
  | "" => None
  | String c _ =>
      if Str.is_alpha c then
        match Str.partition ":" url with
        | Some (pre, post) =>
            if Str.all is_scheme_char pre then Some (Str.lower pre, post) else None
        | None => None
        end
      else None
  end.

(** [_splitnetloc(url, 2)] for a [url] that starts with two slashes. *)
Definition splitnetloc (url : string) : string * string :=
  Str.span (fun c => negb (Str.contains c "/?#")) (Str.drop 2 url).

Definition urlsplit (url scheme : string) : ParseResult :=
  let url := Str.lstrip is_c0_control_or_space url in
  let scheme := Str.strip is_c0_control_or_space scheme in
  let url := Str.remove is_unsafe_url_byte url in
  let scheme := Str.remove is_unsafe_url_byte scheme in
  let '(scheme, url) :=
    match split_scheme url with
    | Some (s, u) => (s, u)
    | None => (scheme, url)
    end in
  let '(netloc, url) :=
    if Str.startswith "//" url then splitnetloc url else ("", url) in
  let '(url, fragment) :=
    match Str.partition "#" url with
    | Some (u, f) => (u, f)
    | None => (url, "")
    end in
  let '(url, query) :=
    match Str.partition "?" url with
    | Some (u, q) => (u, q)
    | None => (url, "")
    end in
  {| url_scheme := scheme; url_netloc := netloc; url_path := url;
     url_params := ""; url_query := query; url_fragment := fragment |}.

(** [_splitparams]: the parameters are what follows the first semicolon of the
    last path segment. *)
Definition splitparams (url : string) : string * string :=
  let segments := Str.split "/" url in
  match Str.partition ";" (List.last segments "") with
  | Some (seg, params) =>
      (Str.join "/" (removelast segments ++ [seg]), params)
  | None => (url, "")
  end.

Definition urlparse (url scheme : string) : ParseResult :=
  let r := urlsplit url scheme in
  if bool_decide (url_scheme r ∈ uses_params) && Str.contains ";" (url_path r) then
    let '(path, params) := splitparams (url_path r) in
    {| url_scheme := url_scheme r; url_netloc := url_netloc r; url_path := path;
       url_params := params; url_query := url_query r;
       url_fragment := url_fragment r |}
  else r.

Definition urlunsplit (scheme netloc url query fragment : string) : string :=
  let url :=
    if negb (netloc =? "")
       || (negb (scheme =? "") && bool_decide (scheme ∈ uses_netloc)
           && negb (Str.startswith "//" url))
    then
      let url :=
        if negb (url =? "") && negb (Str.startswith "/" url) then "/" +:+ url
        else url in
      "//" +:+ netloc +:+ url
    else url in
  let url := if negb (scheme =? "") then scheme +:+ ":" +:+ url else url in
  let url := if negb (query =? "") then url +:+ "?" +:+ query else url in
  let url := if negb (fragment =? "") then url +:+ "#" +:+ fragment else url in
  url.

Definition urlunparse (r : ParseResult) : string :=
  let url :=
    if negb (url_params r =? "") then url_path r +:+ ";" +:+ url_params r
    else url_path r in
  urlunsplit (url_scheme r) (url_netloc r) url (url_query r) (url_fragment r).

(** One step of the loop of [urljoin] over the path segments; the resolved
    segments are kept last first. *)
Definition resolve_segment (resolved : list string) (seg : string) : list string :=
  if seg =? ".." then List.tl resolved
  else if seg =? "." then resolved
  else seg :: resolved.

(** [segments[1:-1] = filter(None, segments[1:-1])] *)
Definition drop_empty_inner (segments : list string) : list string :=
  match segments with
  | first :: (_ :: _) as rest =>
      first :: List.filter (fun s => negb (s =? "")) (removelast rest)
        ++ [List.last rest ""]
  | _ => segments
  end.

Definition urljoin (base url : string) : string :=
  if base =? "" then url
  else if url =? "" then base
  else
    let b := urlparse base "" in
    let u := urlparse url (url_scheme b) in
    if negb (url_scheme u =? url_scheme b)
       || negb (bool_decide (url_scheme u ∈ uses_relative))
    then url
    else if bool_decide (url_scheme u ∈ uses_netloc) && negb (url_netloc u =? "")
    then urlunparse u
    else
      let netloc :=
        if bool_decide (url_scheme u ∈ uses_netloc) then url_netloc b
        else url_netloc u in
      if (url_path u =? "") && (url_params u =? "") then
        urlunparse
          {| url_scheme := url_scheme u; url_netloc := netloc;
             url_path := url_path b; url_params := url_params b;
             url_query := if url_query u =? "" then url_query b else url_query u;
             url_fragment := url_fragment u |}
      else
        let base_parts := Str.split "/" (url_path b) in
        let base_parts :=
          if negb (List.last base_parts "" =? "") then removelast base_parts
          else base_parts in
        let segments :=
          if Str.startswith "/" (url_path u) then Str.split "/" (url_path u)
          else drop_empty_inner (base_parts ++ Str.split "/" (url_path u)) in
        let resolved := List.fold_left resolve_segment segments [] in
        let resolved :=
          if bool_decide (List.last segments "" ∈ ["."; ".."]) then "" :: resolved
          else resolved in
        let path := Str.join "/" (List.rev resolved) in
        urlunparse
          {| url_scheme := url_scheme u; url_netloc := netloc;
             url_path := if path =? "" then "/" else path;
             url_params := url_params u; url_query := url_query u;
             url_fragment := url_fragment u |}.

(** ** os.path (posixpath) *)

Module os_path.

Definition isabs (path : string) : bool := Str.startswith "/" path.

(** [path.endswith('/')] *)
Fixpoint endswith_sep (path : string) : bool :=
  match path with
  | "" => false
  | String c "" => Ascii.eqb c "/"
  | String _ rest => endswith_sep rest
  end.

(** [join(a, b)] *)
Definition join (a b : string) : string :=
  if Str.startswith "/" b then b
  else if (a =? "") || endswith_sep a then a +:+ b
  else a +:+ "/" +:+ b.

(** One step of the loop of [normpath] over the components; the kept
    components are held last first. *)
Definition normpath_step (initial_slashes : nat) (new_comps : list string)
    (comp : string) : list string :=
  if (comp =? "") || (comp =? ".") then new_comps
  else if negb (comp =? "..")
          || ((initial_slashes =? 0)%nat && bool_decide (new_comps = []))
          || (match new_comps with top :: _ => top =? ".." | [] => false end)
  then comp :: new_comps
  else List.tl new_comps.

Definition normpath (path : string) : string :=
  if path =? "" then "."
  else
    let initial_slashes :=
      if Str.startswith "/" path then
        if Str.startswith "//" path && negb (Str.startswith "///" path) then 2
        else 1
      else 0 in
    let comps := Str.split "/" path in
    let comps := List.rev (List.fold_left (normpath_step initial_slashes) comps []) in
    let path := Str.join "/" comps in
    let path :=
      match initial_slashes with
      | 0 => path
      | 1 => "/" +:+ path
      | _ => "//" +:+ path
      end in
    if path =? "" then "." else path.

(** [abspath(path)] in the working directory [cwd] *)
Definition abspath (cwd path : string) : string :=
  normpath (if isabs path then path else join cwd path).

(** [basename(path)] *)
Definition basename (path : string) : string :=
  List.last (Str.split "/" path) "".

End os_path.

(** ** datetime *)

Definition two_digits (n : N) : string :=
  if (n <? 10)%N then "0" +:+ pretty n else pretty n.

(** [d.strftime('%Y-%m-%d')], the year as glibc prints it (no padding) *)
Definition strftime_Ymd (d : Date) : string :=
  pretty (year d) +:+ "-" +:+ two_digits (month d) +:+ "-" +:+ two_digits (day d).

(** ** Effects of the libraries *)

(** One HTTP exchange: the request goes out, then the server answers or the
    transport fails. *)
Definition request (r : Request) : M Response :=
  fun w => (server w (sent w) r, set_sent (sent w ++ [r]) w).

Definition requests_get (url : string) (params headers : gmap string string)
    : M Response :=
  request {| req_method := "GET"; req_url := url; req_params := params;
             req_headers := headers; req_files := ∅ |}.

Definition requests_post (url : string) (headers : gmap string string)
    (files : gmap string pyval) : M Response :=
  request {| req_method := "POST"; req_url := url; req_params := ∅;
             req_headers := headers; req_files := files |}.

(** [resp.json()] *)
Definition resp_json (resp : Response) : M pyval :=
  match json resp with
  | Some v => ret v
  | None => raise JSONDecodeError
  end.

(** [tempfile.mkstemp(prefix=..., suffix=...)]: an empty file is created and
    its descriptor, an int, is returned with its path. *)
Definition mkstemp (prefix suffix : string) : M (pyval * string) :=
  fun w =>
    let '(fd, path) := mkstemp_pick w prefix suffix in
    if writable w path then
      (Ok (PyInt fd, path), set_disk (<[path := ""]> (disk w)) w)
    else (Raise (OSError path), w).

(** [with open(name, 'wb') as f: f.write(data)]; a relative name is
    resolved against the working directory, lexically. *)
Definition write_binary (name data : string) : M unit :=
  fun w =>
    let path := os_path.abspath (getcwd w) name in
    if writable w path then (Ok tt, set_disk (<[path := data]> (disk w)) w)
    else (Raise (OSError name), w).

(** [os.path.abspath(name)] *)
Definition abspath (name : string) : M string :=
  w <- get_world ;; ret (os_path.abspath (getcwd w) name).

(** [datetime.now()] *)
Definition datetime_now : M Date :=
  w <- get_world ;; ret (today w).

(** ** qci/api.py

    Parameters that the docstrings give as strings (tokens, identifiers,
    filters, file names) are strings here; an omitted optional argument is
    its default, the empty string. *)

Definition BASE_URL : string := "https://api.ingenuity.com/".

Definition get_access_token (client_id client_secret : string) : M pyval :=
  let api_url := urljoin BASE_URL "/v1/oauth/access_token" in
  let payload : gmap string string :=
    {[ "grant_type" := "client_credentials";
       "client_id" := client_id;
       "client_secret" := client_secret ]} in
  resp <- requests_get api_url payload ∅ ;;
  body <- resp_json resp ;;
  py_getitem body "access_token".

Definition validate_datapackage (datapackage : pyval) : M unit :=
  if negb (isinstance_DataPackage datapackage) then
    msg <- DataPackage.format "DataPackage failed validation (not a DataPackage): "
             datapackage "" ;;
    raise (ValueError msg)
  else ret tt.

Definition upload_datapackage (datapackage : pyval) : M pyval :=
  let api_url := urljoin BASE_URL "/v1/datapackages" in
  _ <- validate_datapackage datapackage ;;
  tmp <- mkstemp "QCI_DP_" ".zip" ;;
  let '(datapackage_fd, datapackage_file_path) := tmp in
  write <- py_getattr datapackage_fd "write" ;;
  to_xml <- py_getattr datapackage "to_xml" ;;
  xml <- py_call to_xml no_args ;;
  _ <- py_call write {| positional := [xml]; keywords := [] |} ;;
  token <- py_getattr datapackage "access_token" ;;
  authorization <- DataPackage.format "Bearer " token "" ;;
  let headers : gmap string string := {[ "Authorization" := authorization ]} in
  read <- py_getattr datapackage_fd "read" ;;
  data <- py_call read no_args ;;
  let files : gmap string pyval := {[ "file" := data ]} in
  resp <- requests_post api_url headers files ;;
  resp_json resp.

Definition get_report_pdf (access_token qci_id output_pdf_filename : string)
    : M string :=
  let api_url :=
    urljoin BASE_URL
      ("/v1/export/" +:+ qci_id +:+ "?view=" +:+ "pdf"
       +:+ "&access_token=" +:+ access_token) in
  let headers : gmap string string :=
    {[ "Authorization" := "Bearer " +:+ access_token ]} in
  resp <- requests_get api_url ∅ headers ;;
  output_pdf_filename <-
    (if negb (output_pdf_filename =? "") then ret output_pdf_filename
     else
       now <- datetime_now ;;
       ret (qci_id +:+ "_" +:+ strftime_Ymd now +:+ ".pdf")) ;;
  _ <- write_binary output_pdf_filename (content resp) ;;
  abspath output_pdf_filename.

(** The URL that [list_tests] requests. *)
Definition list_tests_url (state start_date end_date sort_by : string) : string :=
  let api_url := urljoin BASE_URL ("/v1/clinical?" +:+ "state=" +:+ state) in
  let api_url :=
    if negb (start_date =? "") then api_url +:+ "&startReceivedDate=" +:+ start_date
    else api_url in
  let api_url :=
    if negb (end_date =? "") then api_url +:+ "&endReceivedDate=" +:+ end_date
    else api_url in
  let api_url :=
    if negb (sort_by =? "") then api_url +:+ "&sort=" +:+ sort_by
    else api_url in
  api_url.

Definition list_tests (access_token state start_date end_date sort_by : string)
    : M pyval :=
  let api_url := list_tests_url state start_date end_date sort_by in
  let headers : gmap string string :=
    {[ "Authorization" := "Bearer " +:+ access_token ]} in
  resp <- requests_get api_url ∅ headers ;;
  resp_json resp.

(** The first replacement field takes [qci_id]; [format] is also handed the
    token, which no field uses. *)
Definition check_submission_status (access_token qci_id : string) : M pyval :=
  let api_url := urljoin BASE_URL ("/v1/datapackages/" +:+ qci_id) in
  let headers : gmap string string :=
    {[ "Authorization" := "Bearer " +:+ access_token ]} in
  resp <- requests_get api_url ∅ headers ;;
  resp_json resp.

(** [xmltodict.parse] is the caller's: it turns the bytes of the report into
    a mapping or raises. *)
Definition get_test_result_xml (xmltodict_parse : string -> result pyval)
    (access_token qci_id : string) : M pyval :=
  let api_url :=
    urljoin BASE_URL
      ("/v1/export/" +:+ qci_id +:+ "?view=" +:+ "reportXml"
       +:+ "&access_token=" +:+ access_token) in
  let headers : gmap string string :=
    {[ "Authorization" := "Bearer " +:+ access_token ]} in
  resp <- requests_get api_url ∅ headers ;;
  let resp_xml := content resp in
  resp_dict <- lift (xmltodict_parse resp_xml) ;;
  ret resp_dict.

Definition get_test_product_profiles (access_token : string) : M pyval :=
  let api_url := urljoin BASE_URL "/v1/testProductProfiles" in
  let headers : gmap string string :=
    {[ "Authorization" := "Bearer " +:+ access_token ]} in
  resp <- requests_get api_url ∅ headers ;;
  resp_json resp.

(** ** A sample world

    A lab machine on 9 March 2024: an empty heap and disk, a service that
    answers every request with a token document, and a writable file
    system. *)

Definition sample_response : Response :=
  {| status_code := 200;
     content := "%PDF-1.4";
     json := Some (PyDict {[ "access_token" := PyStr "8c1f0e"; "expires_in" := PyInt 3600 ]}) |}.

Definition sample_world : World :=
  {| heap := ∅;
     disk := ∅;
     sent := [];
     server := fun _ _ => Ok sample_response;
     today := {| year := 2024; month := 3; day := 9 |};
     getcwd := "/home/lab";
     mkstemp_pick := fun prefix suffix => (3%Z, "/tmp/" +:+ prefix +:+ "k3v9x2qa" +:+ suffix);
     writable := fun _ => true;
     repr := fun _ => "<object>" |}.

(** [DataPackage(access_token, primary_id, secondary_id)] *)
Definition construct (access_token primary_id secondary_id : pyval) : M pyval :=
  DataPackage.new
    {| positional := [access_token; primary_id; secondary_id]; keywords := [] |}.

(** The sample world after [DataPackage('', 'COtGx1234', None)]. *)
Definition world_with_tokenless_package : World :=
  snd (construct (PyStr "") (PyStr "COtGx1234") PyNone sample_world).

(** The sample world after [DataPackage('8c1f0e', 'COtGx1234', 'S-17')]. *)
Definition world_with_package : World :=
  snd (construct (PyStr "8c1f0e") (PyStr "COtGx1234") (PyStr "S-17") sample_world).

(** ** Vocabulary of the properties *)

(** A computation that leaves the heap as it found it, however it ends. *)
Definition keeps_heap {A} (m : M A) : Prop :=
  forall w, heap (snd (m w)) = heap w.

(** The attributes of the object at [l]: its instance dictionary, which
    holds [_access_token], [_primary_id] and [_secondary_id]. *)
Definition attributes (w : World) (l : loc) : option (gmap string pyval) :=
  heap w !! l.

(** A field [name=value] of a query; a field without [=] has no value. *)
Definition query_field (field : string) : string * string :=
  match Str.partition "=" field with
  | Some (name, value) => (name, value)
  | None => (field, "")
  end.

(** The parameters a URL carries: the fields of its query, as [urlsplit]
    cuts it out, in order. *)
Definition query_fields (url : string) : list (string * string) :=
  List.map query_field
    (List.filter (fun f => negb (f =? ""))
       (Str.split "&" (url_query (urlsplit url "")))).

(** The filters of [list_tests] under their parameter names. *)
Definition filters (state start_date end_date sort_by : string)
    : list (string * string) :=
  [("state", state); ("startReceivedDate", start_date);
   ("endReceivedDate", end_date); ("sort", sort_by)].

(** The filters that were supplied: those that are not the default. *)
Definition supplied (fs : list (string * string)) : list (string * string) :=
  List.filter (fun f => negb (snd f =? "")) fs.

(** The field that [list_tests] appends for a filter: none for the
    default. *)
Definition optional_field (name value : string) : list string :=
  if value =? "" then [] else [name +:+ "=" +:+ value].

(** A filter value without a character that ends a field or the query, or
    that [urlsplit] removes. *)
Definition plain_char (c : ascii) : bool :=
  negb (Str.contains c "&#") && negb (is_unsafe_url_byte c).

Definition plain (s : string) : bool := Str.all plain_char s.

(** A date that [datetime.now()] can return with a four-digit year. *)
Definition valid_date (d : Date) : Prop :=
  (1000 <= year d <= 9999)%N /\ (1 <= month d <= 12)%N /\ (1 <= day d <= 31)%N.

(** Text of the shape yyyy-mm-dd. *)
Definition is_yyyy_mm_dd (s : string) : bool :=
  match s with
  | String y1 (String y2 (String y3 (String y4 (String h1
      (String m1 (String m2 (String h2 (String d1 (String d2 ""))))))))) =>
      Str.is_digit y1 && Str.is_digit y2 && Str.is_digit y3 && Str.is_digit y4
      && Ascii.eqb h1 "-" && Str.is_digit m1 && Str.is_digit m2
      && Ascii.eqb h2 "-" && Str.is_digit d1 && Str.is_digit d2
  | _ => false
  end.

(** Text made of four digits, of two digits. *)
Definition four_digits (s : string) : bool :=
  match s with
  | String a (String b (String c (String d ""))) =>
      Str.is_digit a && Str.is_digit b && Str.is_digit c && Str.is_digit d
  | _ => false
  end.

Definition two_digits_ok (s : string) : bool :=
  match s with
  | String a (String b "") => Str.is_digit a && Str.is_digit b
  | _ => false
  end.

(** The numbers [lo], [lo + 1], ..., [lo + len - 1]. *)
Definition range_N (lo len : N) : list N :=
  List.map (fun k => (lo + N.of_nat k)%N) (seq 0 (N.to_nat len)).

(** ** Vocabulary of the further properties *)

(** [validate] with its second, repeated block removed. *)
Definition validate_once (self : loc) (debug : pyval) : M pyval :=
  bind (DataPackage.getattr self "access_token") (fun token =>
    if negb (truthy token) then
      if truthy debug then
        bind (DataPackage.no_token_message self) (fun msg => raise (ValueError msg))
      else ret (PyBool false)
    else ret PyNone).

(** A character that may stand in the path of a reference: none that ends
    the path or starts its parameters, and none that [urlsplit] removes. *)
Definition path_char (c : ascii) : bool :=
  negb (Str.contains c "?#;") && negb (is_unsafe_url_byte c).

(** A path segment that [urljoin] keeps as it is. *)
Definition kept_segment (seg : string) : bool :=
  negb (seg =? ".") && negb (seg =? "..").

(** An identifier that makes one path segment. *)
Definition identifier (qci_id : string) : bool :=
  Str.all path_char qci_id && negb (Str.contains "/" qci_id) && kept_segment qci_id.

(** The query that follows a path, with its question mark; none when the
    query is empty. *)
Definition query_suffix (query : string) : string :=
  if query =? "" then "" else "?" +:+ query.

(** The GET of a URL under a bearer token, as the wrappers send it. *)
Definition bearer_get (url access_token : string) : Request :=
  {| req_method := "GET"; req_url := url; req_params := ∅;
     req_headers := {[ "Authorization" := "Bearer " +:+ access_token ]};
     req_files := ∅ |}.

(** What a wrapper that ends in [resp.json()] makes of the answer to its
    request: the decoded body, whatever the status code. *)
Definition decoded (answer : result Response) : result pyval :=
  match answer with
  | Ok resp =>
      match json resp with
      | Some v => Ok v
      | None => Raise JSONDecodeError
      end
  | Raise e => Raise e
  end.

(** The sample world with another server and another file system. *)
Definition sample_world_with (srv : list Request -> Request -> result Response)
    (wr : string -> bool) : World :=
  {| heap := heap sample_world; disk := disk sample_world; sent := sent sample_world;
     server := srv; today := today sample_world; getcwd := getcwd sample_world;
     mkstemp_pick := mkstemp_pick sample_world; writable := wr;
     repr := repr sample_world |}.

(** A response whose body is a JSON object without the key [access_token]. *)
Definition error_response : Response :=
  {| status_code := 401;
     content := "{}";
     json := Some (PyDict {[ "error" := PyStr "invalid_client" ]}) |}.

(** A response whose body is not JSON. *)
Definition html_response : Response :=
  {| status_code := 502; content := "<html>Bad Gateway</html>"; json := None |}.

(** * Properties *)

(** ** The monad *)

Lemma bind_ok {A B} (m : M A) (k : A -> M B) w a w' :
  m w = (Ok a, w') -> bind m k w = k a w'.
Proof. intros H. unfold bind. rewrite H. reflexivity. Qed.

Lemma bind_raise {A B} (m : M A) (k : A -> M B) w e w' :
  m w = (Raise e, w') -> bind m k w = (Raise e, w').
Proof. intros H. unfold bind. rewrite H. reflexivity. Qed.

Lemma keeps_heap_ret {A} (a : A) : keeps_heap (ret a).
Proof. intros w. reflexivity. Qed.

Lemma keeps_heap_raise {A} (e : exn) : keeps_heap (@raise A e).
Proof. intros w. reflexivity. Qed.

Lemma keeps_heap_lift {A} (r : result A) : keeps_heap (lift r).
Proof. intros w. reflexivity. Qed.

Lemma keeps_heap_get_world : keeps_heap get_world.
Proof. intros w. reflexivity. Qed.

Lemma keeps_heap_bind {A B} (m : M A) (k : A -> M B) :
  keeps_heap m -> (forall a, keeps_heap (k a)) -> keeps_heap (bind m k).
Proof.
  intros Hm Hk w. unfold bind.
  specialize (Hm w). destruct (m w) as [[a|e] w1]; simpl in *.
  - rewrite Hk. exact Hm.
  - exact Hm.
Qed.

Lemma keeps_heap_if {A} (b : bool) (m1 m2 : M A) :
  keeps_heap m1 -> keeps_heap m2 -> keeps_heap (if b then m1 else m2).
Proof. destruct b; auto. Qed.

Create HintDb keeps_heap.
#[local] Hint Resolve keeps_heap_ret keeps_heap_raise keeps_heap_lift
  keeps_heap_get_world keeps_heap_if : keeps_heap.
#[local] Hint Extern 2 (keeps_heap (bind _ _)) =>
  apply keeps_heap_bind; [ | intros ? ] : keeps_heap.

(** ** Attribute lookup *)

Lemma instance_dict_found w l d :
  heap w !! l = Some d -> DataPackage.instance_dict l w = (Ok d, w).
Proof. intros H. unfold DataPackage.instance_dict. rewrite H. reflexivity. Qed.

Lemma getattr_plain_found w l d name v :
  heap w !! l = Some d -> d !! name = Some v ->
  DataPackage.getattr_plain l name w = (Ok v, w).
Proof.
  intros Hl Hd. unfold DataPackage.getattr_plain.
  rewrite (bind_ok _ _ _ _ _ (instance_dict_found _ _ _ Hl)).
  rewrite Hd. reflexivity.
Qed.

Lemma getattr_plain_missing w l d name :
  heap w !! l = Some d -> d !! name = None -> name ∉ DataPackage.methods ->
  DataPackage.getattr_plain l name w
  = (Raise (AttributeError ("'DataPackage' object has no attribute '" +:+ name +:+ "'")), w).
Proof.
  intros Hl Hd Hm. unfold DataPackage.getattr_plain.
  rewrite (bind_ok _ _ _ _ _ (instance_dict_found _ _ _ Hl)).
  rewrite Hd. rewrite bool_decide_eq_false_2 by exact Hm. reflexivity.
Qed.

Lemma access_token_found w l d token :
  heap w !! l = Some d -> d !! "_access_token" = Some token ->
  DataPackage.getattr l "access_token" w = (Ok token, w).
Proof. intros Hl Hd. exact (getattr_plain_found _ _ _ _ _ Hl Hd). Qed.

Lemma keeps_heap_instance_dict l : keeps_heap (DataPackage.instance_dict l).
Proof.
  intros w. unfold DataPackage.instance_dict. destruct (heap w !! l); reflexivity.
Qed.

Lemma keeps_heap_getattr_plain l name : keeps_heap (DataPackage.getattr_plain l name).
Proof.
  unfold DataPackage.getattr_plain.
  apply keeps_heap_bind; [apply keeps_heap_instance_dict|].
  intros d. destruct (d !! name); auto with keeps_heap.
Qed.

Lemma keeps_heap_getattr l name : keeps_heap (DataPackage.getattr l name).
Proof.
  unfold DataPackage.getattr, DataPackage.access_token.
  destruct (name =? "access_token"); apply keeps_heap_getattr_plain.
Qed.

#[local] Hint Resolve keeps_heap_instance_dict keeps_heap_getattr_plain
  keeps_heap_getattr : keeps_heap.

Lemma keeps_heap_str_add s v : keeps_heap (str_add s v).
Proof. destruct v; simpl; auto with keeps_heap. Qed.

Lemma keeps_heap_to_xml l : keeps_heap (DataPackage.to_xml l).
Proof.
  unfold DataPackage.to_xml.
  auto using keeps_heap_str_add with keeps_heap.
Qed.

Lemma keeps_heap___str__ l : keeps_heap (DataPackage.__str__ l).
Proof. unfold DataPackage.__str__. auto with keeps_heap. Qed.

Lemma keeps_heap_str v : keeps_heap (DataPackage.str v).
Proof.
  unfold DataPackage.str, py_str.
  destruct v; auto with keeps_heap.
  apply keeps_heap_bind; [apply keeps_heap___str__|].
  intros r. destruct r; auto with keeps_heap.
Qed.

Lemma keeps_heap_format before v after : keeps_heap (DataPackage.format before v after).
Proof.
  unfold DataPackage.format. auto using keeps_heap_str with keeps_heap.
Qed.

Lemma keeps_heap_no_token_message l : keeps_heap (DataPackage.no_token_message l).
Proof.
  unfold DataPackage.no_token_message.
  auto using keeps_heap_format with keeps_heap.
Qed.

Lemma keeps_heap_validate l debug : keeps_heap (DataPackage.validate l debug).
Proof.
  unfold DataPackage.validate.
  apply keeps_heap_bind; [auto with keeps_heap|]. intros token.
  destruct (truthy token), (truthy debug); simpl;
    auto 6 using keeps_heap_no_token_message with keeps_heap.
Qed.

(** ** The class DataPackage *)

Lemma bind_three_positional a p s :
  bind_args ["access_token"; "primary_id"; "secondary_id"] ∅
    {| positional := [a; p; s]; keywords := [] |}
  = Ok (<["secondary_id" := s]> (<["primary_id" := p]> (<["access_token" := a]> ∅))).
Proof. reflexivity. Qed.

Lemma arg_three a p s :
  let bound : gmap string pyval :=
    <["secondary_id" := s]> (<["primary_id" := p]> (<["access_token" := a]> ∅)) in
  arg bound "access_token" = a /\ arg bound "primary_id" = p
  /\ arg bound "secondary_id" = s.
Proof. cbv [arg]. auto. Qed.

(** What [__init__] leaves in a new object. *)
Lemma construct_spec w access_token primary_id secondary_id :
  let l := fresh (dom (heap w)) in
  construct access_token primary_id secondary_id w
  = (Ok (PyRef l),
     set_heap (<[l := <["_secondary_id" := secondary_id]>
                        (<["_primary_id" := primary_id]>
                           (<["_access_token" := access_token]> ∅))]> (heap w)) w).
Proof.
  intros l. unfold construct, DataPackage.new.
  rewrite bind_three_positional. unfold bind at 1, lift.
  destruct (arg_three access_token primary_id secondary_id) as (-> & -> & ->).
  unfold DataPackage.__init__, DataPackage.setattr, DataPackage.instance_dict,
    bind, lift, modify, ret.
  cbn -[fresh dom insert lookup]. fold l.
  rewrite !lookup_insert_eq. cbn -[fresh dom insert lookup].
  rewrite !lookup_insert_eq. cbn -[fresh dom insert lookup].
  rewrite !lookup_insert_eq. cbn -[fresh dom insert lookup].
  unfold set_heap; cbn -[fresh dom insert lookup].
  rewrite !insert_insert_eq. reflexivity.
Qed.

(** C6: [to_xml] of a package whose primary identifier is the string [p]
    returns [p] itself and changes nothing: no markup is produced. *)
Theorem to_xml_is_primary_id (w : World) (l : loc) (d : gmap string pyval) (p : string) :
  heap w !! l = Some d ->
  d !! "_primary_id" = Some (PyStr p) ->
  DataPackage.to_xml l w = (Ok (PyStr p), w).
Proof.
  intros Hl Hp. unfold DataPackage.to_xml.
  rewrite (bind_ok _ _ w (PyStr p) w); [reflexivity|].
  exact (getattr_plain_found _ _ _ _ _ Hl Hp).
Qed.

Lemma to_xml_is_primary_id_witness :
  heap world_with_package !! 0 = Some {[ "_access_token" := PyStr "8c1f0e";
                                         "_primary_id" := PyStr "COtGx1234";
                                         "_secondary_id" := PyStr "S-17" ]}
  /\ DataPackage.to_xml 0 world_with_package = (Ok (PyStr "COtGx1234"), world_with_package).
Proof.
  split; [reflexivity|].
  eapply to_xml_is_primary_id; reflexivity.
Defined.

(** A primary identifier that is not a str cannot be appended to the empty
    text. *)
Lemma to_xml_not_a_string w l d v :
  heap w !! l = Some d ->
  d !! "_primary_id" = Some v ->
  (forall p, v <> PyStr p) ->
  exists msg, DataPackage.to_xml l w = (Raise (TypeError msg), w).
Proof.
  intros Hl Hp Hv. unfold DataPackage.to_xml.
  rewrite (bind_ok _ _ w v w) by exact (getattr_plain_found _ _ _ _ _ Hl Hp).
  destruct v; try (eexists; reflexivity).
  exfalso. exact (Hv s eq_refl).
Qed.

(** C9: with [debug=False], [validate] returns False for a package whose
    token is false (the empty string is) and None for any other token; it
    never returns True, whatever the heap holds. *)
Theorem validate_never_confirms (w : World) (l : loc) :
  fst (DataPackage.validate l (PyBool false) w) <> Ok (PyBool true)
  /\ (forall d token,
        heap w !! l = Some d -> d !! "_access_token" = Some token ->
        DataPackage.validate l (PyBool false) w
        = (Ok (if truthy token then PyNone else PyBool false), w))
  /\ (forall d,
        heap w !! l = Some d -> d !! "_access_token" = Some (PyStr "") ->
        DataPackage.validate l (PyBool false) w = (Ok (PyBool false), w))
  /\ (forall d s,
        heap w !! l = Some d -> d !! "_access_token" = Some (PyStr s) -> s <> "" ->
        DataPackage.validate l (PyBool false) w = (Ok PyNone, w)).
Proof.
  assert (Hgen : forall d token,
             heap w !! l = Some d -> d !! "_access_token" = Some token ->
             DataPackage.validate l (PyBool false) w
             = (Ok (if truthy token then PyNone else PyBool false), w)).
  { intros d token Hl Ht. unfold DataPackage.validate.
    rewrite (bind_ok _ _ _ _ _ (access_token_found _ _ _ _ Hl Ht)).
    destruct (truthy token) eqn:E; simpl; [|reflexivity].
    rewrite (bind_ok _ _ _ _ _ (access_token_found _ _ _ _ Hl Ht)).
    rewrite E. reflexivity. }
  split; [|split; [exact Hgen|split]].
  - unfold DataPackage.validate, bind.
    destruct (DataPackage.getattr l "access_token" w) as [[token|e] w1]; [|discriminate].
    destruct (truthy token); simpl; [|discriminate].
    destruct (DataPackage.getattr l "access_token" w1) as [[token'|e] w2]; [|discriminate].
    destruct (truthy token'); simpl; discriminate.
  - intros d Hl Ht. exact (Hgen d _ Hl Ht).
  - intros d s Hl Ht Hs. rewrite (Hgen d _ Hl Ht). simpl.
    destruct (String.eqb_spec s ""); [contradiction|reflexivity].
Qed.

Lemma validate_never_confirms_witness :
  heap world_with_tokenless_package !! 0
  = Some {[ "_access_token" := PyStr ""; "_primary_id" := PyStr "COtGx1234";
            "_secondary_id" := PyNone ]}
  /\ DataPackage.validate 0 (PyBool false) world_with_tokenless_package
     = (Ok (PyBool false), world_with_tokenless_package)
  /\ heap world_with_package !! 0
     = Some {[ "_access_token" := PyStr "8c1f0e"; "_primary_id" := PyStr "COtGx1234";
               "_secondary_id" := PyStr "S-17" ]}
  /\ DataPackage.validate 0 (PyBool false) world_with_package
     = (Ok PyNone, world_with_package).
Proof.
  destruct (validate_never_confirms world_with_tokenless_package 0) as (_ & _ & Hempty & _).
  destruct (validate_never_confirms world_with_package 0) as (_ & _ & _ & Hset).
  split; [reflexivity|].
  split; [eapply Hempty; reflexivity|].
  split; [reflexivity|].
  eapply Hset; [reflexivity|reflexivity|discriminate].
Defined.

(** A new object holds the three underscored attributes and nothing under
    the name [primary_id]. *)
Lemma construct_attributes w access_token primary_id secondary_id :
  let l := fresh (dom (heap w)) in
  let w' := snd (construct access_token primary_id secondary_id w) in
  exists d,
    heap w' !! l = Some d
    /\ d !! "_access_token" = Some access_token
    /\ d !! "_primary_id" = Some primary_id
    /\ d !! "_secondary_id" = Some secondary_id
    /\ d !! "primary_id" = None.
Proof.
  intros l w'. unfold w'. rewrite construct_spec. fold l.
  eexists. split; [apply lookup_insert_eq|].
  repeat split; reflexivity.
Qed.

(** C10: an object that has no instance attribute [primary_id] (none that
    [__init__] builds has one, and the class defines none) answers [__str__]
    with AttributeError, and so does [validate] in debug mode when the token
    is false: the ValueError it was about to build is never raised. *)
Theorem primary_id_lookup_raises (w : World) (l : loc) (d : gmap string pyval) :
  heap w !! l = Some d ->
  d !! "primary_id" = None ->
  let missing := AttributeError "'DataPackage' object has no attribute 'primary_id'" in
  DataPackage.__str__ l w = (Raise missing, w)
  /\ (forall token debug,
        d !! "_access_token" = Some token -> truthy token = false ->
        truthy debug = true ->
        DataPackage.validate l debug w = (Raise missing, w)).
Proof.
  intros Hl Hp missing.
  assert (Hget : DataPackage.getattr l "primary_id" w = (Raise missing, w)).
  { apply (getattr_plain_missing _ _ _ _ Hl Hp).
    unfold DataPackage.methods. rewrite !elem_of_cons, elem_of_nil.
    intros [H|[H|[H|[H|[]]]]]; discriminate H. }
  split; [exact Hget|].
  intros token debug Ht Hfalse Hdebug. unfold DataPackage.validate.
  rewrite (bind_ok _ _ _ _ _ (access_token_found _ _ _ _ Hl Ht)).
  rewrite Hfalse, Hdebug. simpl. unfold DataPackage.no_token_message.
  rewrite (bind_raise _ _ _ _ _ (bind_raise _ _ _ _ _ Hget)). reflexivity.
Qed.

Lemma primary_id_lookup_raises_witness :
  let d : gmap string pyval :=
    {[ "_access_token" := PyStr ""; "_primary_id" := PyStr "COtGx1234";
       "_secondary_id" := PyNone ]} in
  let missing := AttributeError "'DataPackage' object has no attribute 'primary_id'" in
  heap world_with_tokenless_package !! 0 = Some d
  /\ d !! "primary_id" = None
  /\ DataPackage.__str__ 0 world_with_tokenless_package
     = (Raise missing, world_with_tokenless_package)
  /\ DataPackage.validate 0 (PyBool true) world_with_tokenless_package
     = (Raise missing, world_with_tokenless_package).
Proof.
  intros d missing.
  assert (Hl : heap world_with_tokenless_package !! 0 = Some d) by reflexivity.
  assert (Hp : d !! "primary_id" = None) by reflexivity.
  destruct (primary_id_lookup_raises world_with_tokenless_package 0 d Hl Hp) as [Hstr Hval].
  split; [exact Hl|]. split; [exact Hp|]. split; [exact Hstr|].
  apply (Hval (PyStr "")); reflexivity.
Defined.

(** ** Uploading *)

(** A non-package is refused with ValueError; a package of any content
    passes. *)
Lemma validate_datapackage_instance w l :
  validate_datapackage (PyRef l) w = (Ok tt, w).
Proof. reflexivity. Qed.

(** What [upload_datapackage] does with a package: the temporary file is
    created, and the lookup of [write] on its descriptor ends the call. *)
Lemma upload_datapackage_instance w l :
  upload_datapackage (PyRef l) w
  = let '(fd, path) := mkstemp_pick w "QCI_DP_" ".zip" in
    if writable w path then
      (Raise (AttributeError "'int' object has no attribute 'write'"),
       set_disk (<[path := ""]> (disk w)) w)
    else (Raise (OSError path), w).
Proof.
  unfold upload_datapackage.
  rewrite (bind_ok _ _ _ _ _ (validate_datapackage_instance w l)).
  unfold bind at 1. unfold mkstemp.
  destruct (mkstemp_pick w "QCI_DP_" ".zip") as [fd path].
  destruct (writable w path); reflexivity.
Qed.

(** C1: a package built with the empty token passes [validate_datapackage],
    which looks at the type only; the upload then ends in AttributeError, not
    in a validation error, although [validate] does tell that the token is
    missing. *)
Theorem upload_without_token_not_rejected_by_validation :
  heap world_with_tokenless_package !! 0
  = Some {[ "_access_token" := PyStr ""; "_primary_id" := PyStr "COtGx1234";
            "_secondary_id" := PyNone ]}
  /\ validate_datapackage (PyRef 0) world_with_tokenless_package
     = (Ok tt, world_with_tokenless_package)
  /\ fst (upload_datapackage (PyRef 0) world_with_tokenless_package)
     = Raise (AttributeError "'int' object has no attribute 'write'")
  /\ fst (DataPackage.validate 0 (PyBool false) world_with_tokenless_package)
     = Ok (PyBool false).
Proof. repeat split; reflexivity. Qed.

(** C2: for every package and every world, [upload_datapackage] raises: it
    returns no status object and sends no request.  Where the temporary file
    can be created the exception is the AttributeError of [write] on an
    int, and the empty temporary file stays on disk. *)
Theorem upload_never_posts (w : World) (l : loc) :
  (exists e, fst (upload_datapackage (PyRef l) w) = Raise e)
  /\ sent (snd (upload_datapackage (PyRef l) w)) = sent w
  /\ (forall fd path,
        mkstemp_pick w "QCI_DP_" ".zip" = (fd, path) -> writable w path = true ->
        upload_datapackage (PyRef l) w
        = (Raise (AttributeError "'int' object has no attribute 'write'"),
           set_disk (<[path := ""]> (disk w)) w)).
Proof.
  rewrite upload_datapackage_instance.
  destruct (mkstemp_pick w "QCI_DP_" ".zip") as [fd path] eqn:Hpick.
  split; [|split].
  - destruct (writable w path); eexists; reflexivity.
  - destruct (writable w path); reflexivity.
  - intros fd' path' [= <- <-] Hw. rewrite Hw. reflexivity.
Qed.

(** C3: [__init__] has three parameters without defaults, so a call that
    passes the token and the primary identifier only, by keyword (as the
    example at the end of [qci/api.py] does) or by position, raises TypeError
    and builds nothing. *)
Theorem construct_without_secondary_id_raises (w : World) (token primary_id : pyval) :
  DataPackage.new
    {| positional := [];
       keywords := [("access_token", token); ("primary_id", primary_id)] |} w
  = (Raise (TypeError "missing required argument: 'secondary_id'"), w)
  /\ DataPackage.new {| positional := [token; primary_id]; keywords := [] |} w
     = (Raise (TypeError "missing required argument: 'secondary_id'"), w).
Proof. split; reflexivity. Qed.

(** C8: no method of a package, and no upload of it, changes what the heap
    holds: the three attributes stay as [__init__] set them. *)
Theorem datapackage_not_mutated (w : World) (l : loc) :
  attributes (snd (DataPackage.access_token l w)) l = attributes w l
  /\ attributes (snd (DataPackage.to_xml l w)) l = attributes w l
  /\ (forall debug,
        attributes (snd (DataPackage.validate l debug w)) l = attributes w l)
  /\ attributes (snd (DataPackage.__str__ l w)) l = attributes w l
  /\ attributes (snd (upload_datapackage (PyRef l) w)) l = attributes w l.
Proof.
  unfold attributes. repeat split.
  - unfold DataPackage.access_token. rewrite keeps_heap_getattr_plain. reflexivity.
  - rewrite keeps_heap_to_xml. reflexivity.
  - intros debug. rewrite keeps_heap_validate. reflexivity.
  - rewrite keeps_heap___str__. reflexivity.
  - rewrite upload_datapackage_instance.
    destruct (mkstemp_pick w "QCI_DP_" ".zip") as [fd path].
    destruct (writable w path); reflexivity.
Qed.

(** ** The token *)

Lemma token_url :
  urljoin BASE_URL "/v1/oauth/access_token"
  = "https://api.ingenuity.com/v1/oauth/access_token".
Proof. vm_compute. reflexivity. Qed.

(** C5: when the service answers the token request with a JSON object,
    [get_access_token] returns the value under its key [access_token], and
    nothing of the rest of the document. *)
Theorem get_access_token_returns_field
    (w : World) (client_id client_secret : string)
    (resp : Response) (body : gmap string pyval) (token : pyval) :
  let r := {| req_method := "GET";
              req_url := "https://api.ingenuity.com/v1/oauth/access_token";
              req_params := {[ "grant_type" := "client_credentials";
                               "client_id" := client_id;
                               "client_secret" := client_secret ]};
              req_headers := ∅; req_files := ∅ |} in
  server w (sent w) r = Ok resp ->
  json resp = Some (PyDict body) ->
  body !! "access_token" = Some token ->
  get_access_token client_id client_secret w
  = (Ok token, set_sent (sent w ++ [r]) w).
Proof.
  intros r Hserver Hjson Htoken.
  unfold get_access_token. rewrite token_url.
  unfold bind at 1. unfold requests_get, request. fold r. rewrite Hserver.
  unfold bind at 1. unfold resp_json. rewrite Hjson. unfold ret at 1.
  unfold py_getitem. rewrite Htoken. reflexivity.
Qed.

Lemma get_access_token_returns_field_witness :
  let r := {| req_method := "GET";
              req_url := "https://api.ingenuity.com/v1/oauth/access_token";
              req_params := {[ "grant_type" := "client_credentials";
                               "client_id" := "lab-7";
                               "client_secret" := "s3cr3t" ]};
              req_headers := ∅; req_files := ∅ |} in
  server sample_world (sent sample_world) r = Ok sample_response
  /\ get_access_token "lab-7" "s3cr3t" sample_world
     = (Ok (PyStr "8c1f0e"), set_sent (sent sample_world ++ [r]) sample_world).
Proof.
  intros r. split; [reflexivity|].
  apply (get_access_token_returns_field sample_world "lab-7" "s3cr3t" sample_response
           {[ "access_token" := PyStr "8c1f0e"; "expires_in" := PyInt 3600 ]}
           (PyStr "8c1f0e")); reflexivity.
Defined.

(** ** Strings *)

Lemma app_cons (x : ascii) (a b : string) : String x a +:+ b = String x (a +:+ b).
Proof. reflexivity. Qed.

Lemma app_nil_l (b : string) : "" +:+ b = b.
Proof. reflexivity. Qed.

Lemma app_assoc_str (a b c : string) : (a +:+ b) +:+ c = a +:+ (b +:+ c).
Proof.
  induction a as [|x a IH]; [reflexivity|].
  rewrite !app_cons, IH. reflexivity.
Qed.

Lemma app_nil_r_str (a : string) : a +:+ "" = a.
Proof.
  induction a as [|x a IH]; [reflexivity|].
  rewrite app_cons, IH. reflexivity.
Qed.


Lemma contains_app c a b :
  Str.contains c (a +:+ b) = Str.contains c a || Str.contains c b.
Proof.
  induction a as [|x a IH]; rewrite ?app_cons, ?app_nil_l; cbn; [reflexivity|].
  rewrite IH. rewrite orb_assoc. reflexivity.
Qed.

Lemma all_app p a b : Str.all p (a +:+ b) = Str.all p a && Str.all p b.
Proof.
  induction a as [|x a IH]; rewrite ?app_cons, ?app_nil_l; cbn; [reflexivity|].
  rewrite IH. rewrite andb_assoc. reflexivity.
Qed.

Lemma all_contains p c s :
  Str.all p s = true -> p c = false -> Str.contains c s = false.
Proof.
  induction s as [|x s IH]; cbn; [reflexivity|].
  intros [Hx Hs]%andb_true_iff Hc.
  rewrite (IH Hs Hc), orb_false_r.
  destruct (Ascii.eqb_spec x c) as [->|]; [congruence|reflexivity].
Qed.

Lemma remove_app p a b : Str.remove p (a +:+ b) = Str.remove p a +:+ Str.remove p b.
Proof.
  induction a as [|x a IH]; rewrite ?app_cons, ?app_nil_l; cbn; [reflexivity|].
  destruct (p x); cbn; rewrite IH; reflexivity.
Qed.

Lemma remove_none p q s :
  Str.all q s = true -> (forall c, q c = true -> p c = false) -> Str.remove p s = s.
Proof.
  intros Hs Hq. induction s as [|x s IH]; cbn in *; [reflexivity|].
  apply andb_true_iff in Hs as [Hx Hs].
  rewrite (Hq x Hx), (IH Hs). reflexivity.
Qed.

Lemma partition_none c s : Str.contains c s = false -> Str.partition c s = None.
Proof.
  induction s as [|x s IH]; cbn; [reflexivity|].
  intros [Hx Hs]%orb_false_iff. rewrite Hx, (IH Hs). reflexivity.
Qed.

Lemma partition_app c a b :
  Str.contains c a = false ->
  Str.partition c (a +:+ b)
  = match Str.partition c b with
    | Some (l, r) => Some (a +:+ l, r)
    | None => None
    end.
Proof.
  induction a as [|x a IH]; rewrite ?app_cons, ?app_nil_l; cbn.
  - intros _. destruct (Str.partition c b) as [[l r]|]; reflexivity.
  - intros [Hx Ha]%orb_false_iff. rewrite Hx, (IH Ha).
    destruct (Str.partition c b) as [[l r]|]; reflexivity.
Qed.

Lemma split_none c s : Str.contains c s = false -> Str.split c s = [s].
Proof.
  induction s as [|x s IH]; cbn; [reflexivity|].
  intros [Hx Hs]%orb_false_iff. rewrite Hx, (IH Hs). reflexivity.
Qed.

Lemma split_app c a b :
  Str.contains c a = false ->
  Str.split c (a +:+ String c b) = a :: Str.split c b.
Proof.
  induction a as [|x a IH]; rewrite ?app_cons, ?app_nil_l; cbn.
  - intros _. rewrite Ascii.eqb_refl. reflexivity.
  - intros [Hx Ha]%orb_false_iff. rewrite Hx, (IH Ha). reflexivity.
Qed.

Lemma plain_no_amp s : plain s = true -> Str.contains "&" s = false.
Proof. intros H. apply (all_contains _ _ _ H). reflexivity. Qed.

Lemma plain_no_hash s : plain s = true -> Str.contains "#" s = false.
Proof. intros H. apply (all_contains _ _ _ H). reflexivity. Qed.

Lemma plain_remove s : plain s = true -> Str.remove is_unsafe_url_byte s = s.
Proof.
  intros H. apply (remove_none _ _ _ H).
  intros c [_ Hc]%andb_true_iff. apply negb_true_iff in Hc. exact Hc.
Qed.

Lemma plain_app a b : plain (a +:+ b) = plain a && plain b.
Proof. apply all_app. Qed.


Lemma join_cons sep x y l :
  Str.join sep (x :: y :: l) = x +:+ sep +:+ Str.join sep (y :: l).
Proof. reflexivity. Qed.

Lemma contains_join c sep fields :
  Str.contains c sep = false ->
  Forall (fun f => Str.contains c f = false) fields ->
  Str.contains c (Str.join sep fields) = false.
Proof.
  intros Hsep Hall. induction Hall as [|x l Hx Hl IH]; [reflexivity|].
  destruct l as [|y l]; [exact Hx|].
  rewrite join_cons, !contains_app, Hx, Hsep, IH. reflexivity.
Qed.

Lemma remove_join p sep fields :
  Str.remove p sep = sep ->
  Forall (fun f => Str.remove p f = f) fields ->
  Str.remove p (Str.join sep fields) = Str.join sep fields.
Proof.
  intros Hsep Hall. induction Hall as [|x l Hx Hl IH]; [reflexivity|].
  destruct l as [|y l]; [exact Hx|].
  rewrite join_cons, !remove_app, Hx, Hsep, IH. reflexivity.
Qed.

Lemma split_join c fields :
  fields <> [] ->
  Forall (fun f => Str.contains c f = false) fields ->
  Str.split c (Str.join (String c "") fields) = fields.
Proof.
  intros Hne Hall. induction Hall as [|x l Hx Hl IH]; [contradiction|].
  destruct l as [|y l]; [exact (split_none _ _ Hx)|].
  rewrite join_cons, app_cons, app_nil_l, (split_app _ _ _ Hx), IH; [reflexivity|discriminate].
Qed.

(** ** The URL of list_tests *)

Lemma urlparse_base :
  urlparse BASE_URL ""
  = {| url_scheme := "https"; url_netloc := "api.ingenuity.com"; url_path := "/";
       url_params := ""; url_query := ""; url_fragment := "" |}.
Proof. vm_compute. reflexivity. Qed.

(** A reference made of the path [/v1/clinical] and a query without [#],
    tab, carriage return or line feed splits into these two. *)
Lemma urlsplit_clinical_reference q :
  Str.contains "#" q = false ->
  Str.remove is_unsafe_url_byte q = q ->
  urlsplit ("/v1/clinical?" +:+ q) "https"
  = {| url_scheme := "https"; url_netloc := ""; url_path := "/v1/clinical";
       url_params := ""; url_query := q; url_fragment := "" |}.
Proof.
  intros Hhash Hsafe. unfold urlsplit. cbv zeta.
  change (Str.lstrip is_c0_control_or_space ("/v1/clinical?" +:+ q))
    with ("/v1/clinical?" +:+ q).
  rewrite remove_app, Hsafe.
  change (Str.remove is_unsafe_url_byte "/v1/clinical?") with "/v1/clinical?".
  change (split_scheme ("/v1/clinical?" +:+ q)) with (@None (string * string)).
  cbn iota beta.
  change (Str.startswith "//" ("/v1/clinical?" +:+ q)) with false.
  cbn iota beta.
  rewrite (partition_none "#" ("/v1/clinical?" +:+ q))
    by (rewrite contains_app, Hhash; reflexivity).
  cbn iota beta.
  change (Str.partition "?" ("/v1/clinical?" +:+ q)) with (Some ("/v1/clinical", q)).
  reflexivity.
Qed.

(** The same for the absolute URL. *)
Lemma urlsplit_clinical_url q :
  Str.contains "#" q = false ->
  Str.remove is_unsafe_url_byte q = q ->
  urlsplit ("https://api.ingenuity.com/v1/clinical?" +:+ q) ""
  = {| url_scheme := "https"; url_netloc := "api.ingenuity.com";
       url_path := "/v1/clinical"; url_params := ""; url_query := q;
       url_fragment := "" |}.
Proof.
  intros Hhash Hsafe. unfold urlsplit. cbv zeta.
  change (Str.lstrip is_c0_control_or_space ("https://api.ingenuity.com/v1/clinical?" +:+ q))
    with ("https://api.ingenuity.com/v1/clinical?" +:+ q).
  rewrite remove_app, Hsafe.
  change (Str.remove is_unsafe_url_byte "https://api.ingenuity.com/v1/clinical?")
    with "https://api.ingenuity.com/v1/clinical?".
  change (split_scheme ("https://api.ingenuity.com/v1/clinical?" +:+ q))
    with (Some ("https", "//api.ingenuity.com/v1/clinical?" +:+ q)).
  cbn iota beta.
  change (Str.startswith "//" ("//api.ingenuity.com/v1/clinical?" +:+ q)) with true.
  cbn iota beta.
  change (splitnetloc ("//api.ingenuity.com/v1/clinical?" +:+ q))
    with ("api.ingenuity.com", "/v1/clinical?" +:+ q).
  cbn iota beta.
  rewrite (partition_none "#" ("/v1/clinical?" +:+ q))
    by (rewrite contains_app, Hhash; reflexivity).
  cbn iota beta.
  change (Str.partition "?" ("/v1/clinical?" +:+ q)) with (Some ("/v1/clinical", q)).
  reflexivity.
Qed.

Lemma urlparse_clinical_reference q :
  Str.contains "#" q = false ->
  Str.remove is_unsafe_url_byte q = q ->
  urlparse ("/v1/clinical?" +:+ q) "https"
  = {| url_scheme := "https"; url_netloc := ""; url_path := "/v1/clinical";
       url_params := ""; url_query := q; url_fragment := "" |}.
Proof.
  intros Hhash Hsafe. unfold urlparse.
  rewrite (urlsplit_clinical_reference q Hhash Hsafe). reflexivity.
Qed.

Lemma urljoin_clinical state :
  plain state = true ->
  urljoin BASE_URL ("/v1/clinical?" +:+ "state=" +:+ state)
  = "https://api.ingenuity.com/v1/clinical?" +:+ "state=" +:+ state.
Proof.
  intros Hs. unfold urljoin. rewrite urlparse_base. cbv zeta.
  cbn [url_scheme url_netloc url_path url_params url_query url_fragment].
  rewrite (urlparse_clinical_reference ("state=" +:+ state)).
  - vm_compute. reflexivity.
  - rewrite contains_app, (plain_no_hash _ Hs). reflexivity.
  - rewrite remove_app, (plain_remove _ Hs). reflexivity.
Qed.

(** The URL of [list_tests] is the endpoint followed by the fields of the
    query, joined by ampersands. *)
Lemma list_tests_url_fields state start_date end_date sort_by :
  plain state = true ->
  list_tests_url state start_date end_date sort_by
  = "https://api.ingenuity.com/v1/clinical?"
    +:+ Str.join "&"
          (("state=" +:+ state)
           :: optional_field "startReceivedDate" start_date
           ++ optional_field "endReceivedDate" end_date
           ++ optional_field "sort" sort_by).
Proof.
  intros Hs. unfold list_tests_url, optional_field. cbv zeta.
  rewrite (urljoin_clinical state Hs).
  destruct (start_date =? ""), (end_date =? ""), (sort_by =? "");
    cbn [negb app Str.join];
    repeat (rewrite app_cons || rewrite app_nil_l || rewrite app_assoc_str);
    reflexivity.
Qed.

Lemma optional_field_plain (P : string -> Prop) name value :
  P (name +:+ "=" +:+ value) -> Forall P (optional_field name value).
Proof.
  intros H. unfold optional_field. destruct (value =? ""); repeat constructor. exact H.
Qed.

Lemma list_tests_query_fields state start_date end_date sort_by :
  plain state = true -> plain start_date = true ->
  plain end_date = true -> plain sort_by = true ->
  query_fields (list_tests_url state start_date end_date sort_by)
  = ("state", state)
    :: supplied [("startReceivedDate", start_date); ("endReceivedDate", end_date);
                 ("sort", sort_by)].
Proof.
  intros Hs Hsd Hed Hsb.
  rewrite (list_tests_url_fields _ _ _ _ Hs).
  set (fields := ("state=" +:+ state)
                 :: optional_field "startReceivedDate" start_date
                 ++ optional_field "endReceivedDate" end_date
                 ++ optional_field "sort" sort_by).
  assert (Hplain : Forall (fun f => plain f = true) fields).
  { unfold fields. constructor; [rewrite plain_app, Hs; reflexivity|].
    repeat apply Forall_app_2; apply optional_field_plain;
      rewrite !plain_app; [rewrite Hsd|rewrite Hed|rewrite Hsb]; reflexivity. }
  unfold query_fields.
  rewrite urlsplit_clinical_url.
  - cbn [url_query]. rewrite split_join.
    + unfold fields, optional_field, supplied. cbn [List.filter snd].
      destruct (start_date =? ""), (end_date =? ""), (sort_by =? ""); reflexivity.
    + discriminate.
    + eapply Forall_impl; [exact Hplain|]. intros f. apply plain_no_amp.
  - apply contains_join; [reflexivity|].
    eapply Forall_impl; [exact Hplain|]. intros f. apply plain_no_hash.
  - apply remove_join; [reflexivity|].
    eapply Forall_impl; [exact Hplain|]. intros f. apply plain_remove.
Qed.

(** C4, as it holds: whatever filters are set, the request of [list_tests]
    carries [state] (with an empty value when it is not set), followed by
    those of [startReceivedDate], [endReceivedDate] and [sort] whose value
    was supplied, and no other parameter.  The values are plain: free of
    ampersand, hash, tab, carriage return and line feed. *)
Theorem list_tests_query
    (w : World) (access_token state start_date end_date sort_by : string) :
  plain state = true -> plain start_date = true ->
  plain end_date = true -> plain sort_by = true ->
  exists r,
    sent (snd (list_tests access_token state start_date end_date sort_by w))
    = (sent w ++ [r])%list
    /\ req_method r = "GET"
    /\ req_params r = ∅
    /\ query_fields (req_url r)
       = ("state", state)
         :: supplied [("startReceivedDate", start_date);
                      ("endReceivedDate", end_date); ("sort", sort_by)].
Proof.
  intros Hs Hsd Hed Hsb.
  eexists. split; [|split; [|split]].
  - unfold list_tests, bind, requests_get, request.
    destruct (server w (sent w) _) as [resp|e]; [|reflexivity].
    unfold resp_json. destruct (json resp); reflexivity.
  - reflexivity.
  - reflexivity.
  - cbn [req_url]. apply list_tests_query_fields; assumption.
Qed.

Lemma list_tests_query_witness :
  plain "final" = true /\ plain "2024-01-01" = true /\ plain "" = true
  /\ exists r,
       sent (snd (list_tests "8c1f0e" "final" "2024-01-01" "" "" sample_world))
       = (sent sample_world ++ [r])%list
       /\ req_method r = "GET"
       /\ req_params r = ∅
       /\ query_fields (req_url r)
          = ("state", "final")
            :: supplied [("startReceivedDate", "2024-01-01");
                         ("endReceivedDate", ""); ("sort", "")].
Proof.
  split; [reflexivity|]. split; [reflexivity|]. split; [reflexivity|].
  apply (list_tests_query sample_world "8c1f0e" "final" "2024-01-01" "" "");
    reflexivity.
Defined.

(** C4, as the specification words it, fails: with the two date filters set
    and [state] left out, the URL still names [state], which is not among
    the supplied filters. *)
Lemma list_tests_names_unset_state :
  list_tests_url "" "2024-01-01" "2024-01-31" ""
  = "https://api.ingenuity.com/v1/clinical?state=&startReceivedDate=2024-01-01&endReceivedDate=2024-01-31"
  /\ List.map fst (query_fields (list_tests_url "" "2024-01-01" "2024-01-31" ""))
     = ["state"; "startReceivedDate"; "endReceivedDate"]
  /\ List.map fst (supplied (filters "" "2024-01-01" "2024-01-31" ""))
     = ["startReceivedDate"; "endReceivedDate"]
  /\ List.map fst (query_fields (list_tests_url "" "2024-01-01" "2024-01-31" ""))
     <> List.map fst (supplied (filters "" "2024-01-01" "2024-01-31" "")).
Proof.
  split; [vm_compute; reflexivity|]. split; [vm_compute; reflexivity|].
  split; [vm_compute; reflexivity|]. vm_compute. discriminate.
Qed.

(** ** The date in the file name *)

Lemma forallb_range (p : N -> bool) (lo len n : N) :
  forallb p (range_N lo len) = true ->
  (lo <= n < lo + len)%N -> p n = true.
Proof.
  intros Hall Hn. rewrite forallb_forall in Hall. apply Hall.
  unfold range_N. apply in_map_iff. exists (N.to_nat (n - lo)). split; [lia|].
  apply in_seq. lia.
Qed.

Lemma year_four_digits (y : N) :
  (1000 <= y <= 9999)%N -> four_digits (pretty y) = true.
Proof.
  intros Hy. apply (forallb_range (fun y => four_digits (pretty y)) 1000 9000).
  - vm_compute. reflexivity.
  - lia.
Qed.

Lemma two_digits_shape (n : N) :
  (n <= 99)%N -> two_digits_ok (two_digits n) = true.
Proof.
  intros Hn. apply (forallb_range (fun n => two_digits_ok (two_digits n)) 0 100).
  - vm_compute. reflexivity.
  - lia.
Qed.

Lemma strftime_shape (d : Date) :
  valid_date d -> is_yyyy_mm_dd (strftime_Ymd d) = true.
Proof.
  intros (Hy & Hm & Hd). unfold strftime_Ymd.
  pose proof (year_four_digits (year d) Hy) as Y.
  pose proof (two_digits_shape (month d) ltac:(lia)) as Mo.
  pose proof (two_digits_shape (day d) ltac:(lia)) as Da.
  destruct (pretty (year d)) as [|y1 [|y2 [|y3 [|y4 [|? ?]]]]]; try discriminate Y.
  destruct (two_digits (month d)) as [|m1 [|m2 [|? ?]]]; try discriminate Mo.
  destruct (two_digits (day d)) as [|d1 [|d2 [|? ?]]]; try discriminate Da.
  cbn [four_digits] in Y. cbn [two_digits_ok] in Mo, Da.
  apply andb_true_iff in Y as [Y Y4]. apply andb_true_iff in Y as [Y Y3].
  apply andb_true_iff in Y as [Y1 Y2].
  apply andb_true_iff in Mo as [Mo1 Mo2]. apply andb_true_iff in Da as [Da1 Da2].
  change (is_yyyy_mm_dd
            (String y1 (String y2 (String y3 (String y4 (String "-"
               (String m1 (String m2 (String "-" (String d1 (String d2 "")))))))))) = true).
  cbn [is_yyyy_mm_dd]. rewrite Y1, Y2, Y3, Y4, Mo1, Mo2, Da1, Da2. reflexivity.
Qed.

(** ** Paths *)

Lemma length_app_str (a b : string) :
  String.length (a +:+ b) = String.length a + String.length b.
Proof.
  induction a as [|x a IH]; [reflexivity|].
  rewrite app_cons. cbn [String.length]. rewrite IH. reflexivity.
Qed.

Lemma split_nonempty c s : Str.split c s <> [].
Proof.
  destruct s as [|a s]; cbn; [discriminate|].
  destruct (Ascii.eqb a c); [discriminate|].
  destruct (Str.split c s); discriminate.
Qed.

(** [(a + c + b).split(c) == a.split(c) + b.split(c)] *)
Lemma split_sep_app c a b :
  Str.split c (a +:+ String c b) = (Str.split c a ++ Str.split c b)%list.
Proof.
  induction a as [|x a IH]; rewrite ?app_cons, ?app_nil_l.
  - cbn. rewrite Ascii.eqb_refl. reflexivity.
  - cbn [Str.split]. rewrite IH.
    destruct (Ascii.eqb x c); [reflexivity|].
    pose proof (split_nonempty c a) as Hne.
    destruct (Str.split c a) as [|y ys]; [contradiction|reflexivity].
Qed.

(** Appending text without separator extends the last piece. *)
Lemma split_app_last c p name :
  Str.contains c name = false ->
  Str.split c (p +:+ name)
  = (removelast (Str.split c p) ++ [List.last (Str.split c p) "" +:+ name])%list.
Proof.
  intros Hname. induction p as [|x p IH]; rewrite ?app_cons, ?app_nil_l.
  - cbn. apply split_none. exact Hname.
  - cbn [Str.split]. rewrite IH.
    pose proof (split_nonempty c p) as Hne.
    destruct (Str.split c p) as [|y [|z ys]] eqn:E; [contradiction| |];
      destruct (Ascii.eqb x c); reflexivity.
Qed.

Lemma last_split_sep c a b :
  List.last (Str.split c (a +:+ String c b)) "" = List.last (Str.split c b) "".
Proof.
  rewrite split_sep_app.
  pose proof (split_nonempty c b) as Hne.
  destruct (Str.split c b) as [|y ys] eqn:E; [contradiction|].
  rewrite (app_removelast_last "" (l := y :: ys)) at 1 by discriminate.
  rewrite List.app_assoc, List.last_last. reflexivity.
Qed.

Lemma eqb_short (name s : string) :
  String.length s < String.length name -> (name =? s) = false.
Proof.
  intros H. destruct (String.eqb_spec name s) as [->|]; [lia|reflexivity].
Qed.

Lemma join_snoc sep ys x :
  Str.join sep (ys ++ [x])
  = match ys with
    | [] => ""
    | _ :: _ => Str.join sep ys +:+ sep
    end +:+ x.
Proof.
  induction ys as [|y ys IH]; [reflexivity|].
  destruct ys as [|z ys].
  { change (y +:+ sep +:+ x = (y +:+ sep) +:+ x). rewrite app_assoc_str. reflexivity. }
  change (Str.join sep ((y :: z :: ys) ++ [x]))
    with (y +:+ sep +:+ Str.join sep ((z :: ys) ++ [x])).
  rewrite IH, join_cons, !app_assoc_str. reflexivity.
Qed.

(** A last component that holds no separator and is longer than [..] is
    what [normpath] leaves as the last component. *)
Lemma normpath_keeps_name p name :
  List.last (Str.split "/" p) "" = "" ->
  Str.contains "/" name = false ->
  2 < String.length name ->
  os_path.basename (os_path.normpath (p +:+ name)) = name.
Proof.
  intros Hp Hname Hlen. unfold os_path.normpath.
  rewrite (eqb_short (p +:+ name) "") by (rewrite length_app_str; cbn; lia).
  cbv zeta.
  set (slashes := if Str.startswith "/" (p +:+ name) then _ else 0).
  rewrite (split_app_last "/" p name Hname), Hp, app_nil_l.
  rewrite fold_left_app. cbn [fold_left].
  set (st := fold_left (os_path.normpath_step slashes) (removelast (Str.split "/" p)) []).
  assert (Hstep : os_path.normpath_step slashes st name = name :: st).
  { unfold os_path.normpath_step.
    rewrite (eqb_short name ""), (eqb_short name "."), (eqb_short name "..")
      by (cbn; lia).
    reflexivity. }
  rewrite Hstep. cbn [List.rev]. rewrite join_snoc.
  set (j := match List.rev st with [] => "" | _ :: _ => _ end).
  assert (Hj : forall pre, List.last (Str.split "/" pre) "" = "" ->
                 List.last (Str.split "/" (pre +:+ j)) "" = "").
  { intros pre Hpre. unfold j. destruct (List.rev st) as [|y ys].
    - rewrite app_nil_r_str. exact Hpre.
    - rewrite <- app_assoc_str. apply last_split_sep. }
  assert (Hlast : forall pre, List.last (Str.split "/" pre) "" = "" ->
            os_path.basename
              (if pre +:+ j +:+ name =? "" then "." else pre +:+ j +:+ name) = name).
  { intros pre Hpre.
    rewrite (eqb_short (pre +:+ j +:+ name) "")
      by (rewrite !length_app_str; cbn; lia).
    unfold os_path.basename. rewrite <- app_assoc_str.
    rewrite (split_app_last "/" (pre +:+ j) name Hname), List.last_last.
    rewrite (Hj pre Hpre). reflexivity. }
  destruct slashes as [|[|n]].
  - apply (Hlast ""). reflexivity.
  - apply (Hlast "/"). reflexivity.
  - apply (Hlast "//"). reflexivity.
Qed.

Lemma endswith_sep_snoc p :
  os_path.endswith_sep p = true -> exists q, p = q +:+ "/".
Proof.
  induction p as [|x p IH]; [discriminate|].
  destruct p as [|y p].
  - cbn [os_path.endswith_sep]. intros ->%Ascii.eqb_eq. exists "". reflexivity.
  - intros H. destruct (IH H) as [q Hq]. exists (String x q).
    rewrite app_cons, <- Hq. reflexivity.
Qed.

Lemma startswith_sep_false c name :
  Str.contains c name = false -> Str.startswith (String c "") name = false.
Proof.
  destruct name as [|a name]; [reflexivity|].
  cbn [Str.contains]. intros [Ha _]%orb_false_iff.
  unfold Str.startswith. cbn [String.prefix].
  destruct (ascii_dec c a) as [->|]; [|reflexivity].
  rewrite Ascii.eqb_refl in Ha. discriminate Ha.
Qed.

(** The directory part that [join] puts before a relative name ends a
    component. *)
Lemma join_relative cwd name :
  Str.contains "/" name = false ->
  exists p, os_path.join cwd name = p +:+ name
            /\ List.last (Str.split "/" p) "" = "".
Proof.
  intros Hname. unfold os_path.join.
  rewrite (startswith_sep_false "/" name Hname).
  destruct (cwd =? "") eqn:Hcwd; cbn [orb].
  - apply String.eqb_eq in Hcwd as ->. exists "". split; reflexivity.
  - destruct (os_path.endswith_sep cwd) eqn:Hend.
    + exists cwd. split; [reflexivity|].
      destruct (endswith_sep_snoc cwd Hend) as [q ->].
      apply (last_split_sep "/" q "").
    + exists (cwd +:+ "/"). split; [rewrite app_assoc_str; reflexivity|].
      apply (last_split_sep "/" cwd "").
Qed.

(** The file that [abspath] names is the relative name it was given. *)
Lemma abspath_basename cwd name :
  Str.contains "/" name = false ->
  2 < String.length name ->
  os_path.basename (os_path.abspath cwd name) = name.
Proof.
  intros Hname Hlen. unfold os_path.abspath.
  unfold os_path.isabs. rewrite (startswith_sep_false "/" name Hname).
  destruct (join_relative cwd name Hname) as (p & -> & Hp).
  apply normpath_keeps_name; assumption.
Qed.

Lemma yyyy_mm_dd_no_sep date :
  is_yyyy_mm_dd date = true -> Str.contains "/" date = false.
Proof.
  intros H.
  destruct date as [|y1 [|y2 [|y3 [|y4 [|h1 [|m1 [|m2 [|h2 [|d1 [|d2 [|? ?]]]]]]]]]]];
    try discriminate H.
  cbn [is_yyyy_mm_dd] in H.
  do 9 (apply andb_true_iff in H as [H ?]).
  assert (Hd : forall c, Str.is_digit c = true -> Ascii.eqb c "/" = false).
  { intros c Hc. destruct (Ascii.eqb_spec c "/") as [->|]; [discriminate Hc|reflexivity]. }
  assert (Hh : forall c, Ascii.eqb c "-" = true -> Ascii.eqb c "/" = false).
  { intros c ->%Ascii.eqb_eq. reflexivity. }
  cbn [Str.contains].
  rewrite (Hd y1), (Hd y2), (Hd y3), (Hd y4), (Hh h1), (Hd m1), (Hd m2), (Hh h2),
    (Hd d1), (Hd d2) by assumption.
  reflexivity.
Qed.

(** ** The report *)

(** C7: called without a file name, [get_report_pdf] writes the body of the
    response to the file named [<identifier>_<date>.pdf] in the working
    directory and returns the absolute path of that file.  The date is the
    current one as yyyy-mm-dd, and for an identifier without a slash the
    returned path ends in exactly that name. *)
Theorem get_report_pdf_default_name
    (w : World) (access_token qci_id : string) (resp : Response) :
  let name := qci_id +:+ "_" +:+ strftime_Ymd (today w) +:+ ".pdf" in
  let path := os_path.abspath (getcwd w) name in
  let r := {| req_method := "GET";
              req_url := urljoin BASE_URL
                           ("/v1/export/" +:+ qci_id +:+ "?view=" +:+ "pdf"
                            +:+ "&access_token=" +:+ access_token);
              req_params := ∅;
              req_headers := {[ "Authorization" := "Bearer " +:+ access_token ]};
              req_files := ∅ |} in
  server w (sent w) r = Ok resp ->
  writable w path = true ->
  get_report_pdf access_token qci_id "" w
  = (Ok path,
     set_disk (<[path := content resp]> (disk w)) (set_sent (sent w ++ [r]) w))
  /\ (valid_date (today w) ->
      is_yyyy_mm_dd (strftime_Ymd (today w)) = true
      /\ (Str.contains "/" qci_id = false -> os_path.basename path = name)).
Proof.
  intros name path r Hserver Hwritable. split.
  - unfold get_report_pdf.
    unfold bind at 1. unfold requests_get, request. fold r. rewrite Hserver.
    cbn [negb String.eqb]. unfold bind at 1. unfold bind at 1.
    unfold datetime_now at 1. unfold bind at 1. unfold get_world at 1.
    unfold ret at 1. unfold ret at 1. fold name.
    unfold bind at 1. unfold write_binary.
    cbn [getcwd writable today disk set_sent]. fold name. fold path.
    rewrite Hwritable.
    unfold abspath, bind, get_world, ret. reflexivity.
  - intros Hdate. pose proof (strftime_shape _ Hdate) as Hshape.
    split; [exact Hshape|]. intros Hid. apply abspath_basename.
    + unfold name. rewrite !contains_app, Hid, (yyyy_mm_dd_no_sep _ Hshape).
      reflexivity.
    + unfold name. rewrite !length_app_str. cbn [String.length]. lia.
Qed.

Lemma get_report_pdf_default_name_witness :
  let r := {| req_method := "GET";
              req_url := urljoin BASE_URL
                           ("/v1/export/" +:+ "DP_7276" +:+ "?view=" +:+ "pdf"
                            +:+ "&access_token=" +:+ "8c1f0e");
              req_params := ∅;
              req_headers := {[ "Authorization" := "Bearer " +:+ "8c1f0e" ]};
              req_files := ∅ |} in
  let path := "/home/lab/DP_7276_2024-03-09.pdf" in
  server sample_world (sent sample_world) r = Ok sample_response
  /\ writable sample_world path = true
  /\ valid_date (today sample_world)
  /\ Str.contains "/" "DP_7276" = false
  /\ get_report_pdf "8c1f0e" "DP_7276" "" sample_world
     = (Ok path,
        set_disk (<[path := "%PDF-1.4"]> (disk sample_world))
          (set_sent (sent sample_world ++ [r]) sample_world))
  /\ os_path.basename path = "DP_7276_2024-03-09.pdf".
Proof.
  intros r path.
  assert (Hdate : valid_date (today sample_world))
    by (unfold valid_date, sample_world, today, year, month, day; lia).
  destruct (get_report_pdf_default_name sample_world "8c1f0e" "DP_7276" sample_response
              eq_refl eq_refl) as [Hrun Hname].
  destruct (Hname Hdate) as [_ Hbase].
  split; [reflexivity|]. split; [reflexivity|]. split; [exact Hdate|].
  split; [reflexivity|]. split; [exact Hrun|]. exact (Hbase eq_refl).
Defined.

(** * Further properties *)

(** ** References under /v1/ *)

Lemma join_head sep a x xs :
  Str.join sep (String a x :: xs) = String a (Str.join sep (x :: xs)).
Proof. destruct xs; reflexivity. Qed.

(** [sep.join(s.split(sep)) == s] *)
Lemma join_split c s : Str.join (String c "") (Str.split c s) = s.
Proof.
  induction s as [|a s IH]; [reflexivity|].
  cbn [Str.split]. pose proof (split_nonempty c s) as Hne.
  destruct (Str.split c s) as [|x xs]; [contradiction|].
  destruct (Ascii.eqb_spec a c) as [->|_].
  - rewrite join_cons, app_nil_l, app_cons, app_nil_l, IH. reflexivity.
  - rewrite join_head, IH. reflexivity.
Qed.

Lemma resolve_kept segs acc :
  Forall (fun seg => kept_segment seg = true) segs ->
  fold_left resolve_segment segs acc = (List.rev segs ++ acc)%list.
Proof.
  intros Hall. revert acc. induction Hall as [|seg segs Hseg _ IH]; intros acc.
  - reflexivity.
  - cbn [fold_left List.rev]. rewrite IH, <- List.app_assoc. f_equal.
    unfold kept_segment in Hseg. apply andb_true_iff in Hseg as [H1 H2].
    apply negb_true_iff in H1, H2. unfold resolve_segment. rewrite H1, H2.
    reflexivity.
Qed.

Lemma path_char_no c s :
  Str.all path_char s = true -> path_char c = false -> Str.contains c s = false.
Proof. apply all_contains. Qed.

Lemma path_chars_safe s :
  Str.all path_char s = true -> Str.remove is_unsafe_url_byte s = s.
Proof.
  intros H. apply (remove_none _ _ _ H).
  intros c [_ Hc]%andb_true_iff. apply negb_true_iff in Hc. exact Hc.
Qed.

(** A reference [/v1/<rest>?<query>] splits into its path and its query. *)
Lemma urlparse_v1 rest query :
  Str.all path_char rest = true ->
  Str.contains "#" query = false ->
  Str.remove is_unsafe_url_byte query = query ->
  urlparse ("/v1/" +:+ rest +:+ query_suffix query) "https"
  = {| url_scheme := "https"; url_netloc := ""; url_path := "/v1/" +:+ rest;
       url_params := ""; url_query := query; url_fragment := "" |}.
Proof.
  intros Hrest Hhash Hsafe.
  assert (Hsplit :
    urlsplit ("/v1/" +:+ rest +:+ query_suffix query) "https"
    = {| url_scheme := "https"; url_netloc := ""; url_path := "/v1/" +:+ rest;
         url_params := ""; url_query := query; url_fragment := "" |}).
  { unfold urlsplit. cbv zeta.
    set (url := "/v1/" +:+ rest +:+ query_suffix query).
    change (Str.lstrip is_c0_control_or_space url) with url.
    assert (Hq : Str.remove is_unsafe_url_byte (query_suffix query) = query_suffix query).
    { unfold query_suffix. destruct (query =? ""); [reflexivity|].
      rewrite remove_app, Hsafe. reflexivity. }
    assert (Hurl : Str.remove is_unsafe_url_byte url = url).
    { unfold url. rewrite !remove_app, (path_chars_safe rest Hrest), Hq. reflexivity. }
    rewrite Hurl.
    change (split_scheme url) with (@None (string * string)). cbn iota beta.
    change (Str.startswith "//" url) with false. cbn iota beta.
    assert (Hnohash : Str.contains "#" url = false).
    { unfold url, query_suffix. rewrite !contains_app, (path_char_no "#" rest Hrest eq_refl).
      destruct (query =? ""); [reflexivity|]. rewrite contains_app, Hhash. reflexivity. }
    rewrite (partition_none "#" url Hnohash). cbn iota beta.
    assert (Hpart : Str.partition "?" url
                    = if query =? "" then None else Some ("/v1/" +:+ rest, query)).
    { unfold url, query_suffix. rewrite <- app_assoc_str.
      destruct (query =? "").
      - apply partition_none. rewrite !contains_app, (path_char_no "?" rest Hrest eq_refl).
        reflexivity.
      - rewrite partition_app
          by (rewrite contains_app, (path_char_no "?" rest Hrest eq_refl); reflexivity).
        change (Str.partition "?" ("?" +:+ query)) with (Some ("", query)).
        cbn iota beta. rewrite app_nil_r_str. reflexivity. }
    rewrite Hpart. unfold url, query_suffix.
    destruct (query =? "") eqn:E; cbn iota beta.
    - apply String.eqb_eq in E as ->. rewrite !app_nil_r_str. reflexivity.
    - reflexivity. }
  unfold urlparse. rewrite Hsplit. cbn [url_scheme url_path].
  rewrite contains_app, (path_char_no ";" rest Hrest eq_refl). reflexivity.
Qed.

(** [urljoin] puts such a reference behind the host as it is, when no
    segment of its path is a dot segment. *)
Lemma urljoin_v1 rest query :
  Str.all path_char rest = true ->
  Forall (fun seg => kept_segment seg = true) (Str.split "/" rest) ->
  Str.contains "#" query = false ->
  Str.remove is_unsafe_url_byte query = query ->
  urljoin BASE_URL ("/v1/" +:+ rest +:+ query_suffix query)
  = "https://api.ingenuity.com/v1/" +:+ rest +:+ query_suffix query.
Proof.
  intros Hrest Hsegs Hhash Hsafe. unfold urljoin.
  rewrite urlparse_base. cbv zeta.
  cbn [url_scheme url_netloc url_path url_params url_query url_fragment].
  rewrite (urlparse_v1 rest query Hrest Hhash Hsafe).
  cbn [url_scheme url_netloc url_path url_params url_query url_fragment].
  change (BASE_URL =? "") with false.
  change ("/v1/" +:+ rest +:+ query_suffix query =? "") with false.
  change (negb ("https" =? "https") || negb (bool_decide ("https" ∈ uses_relative)))
    with false.
  change (bool_decide ("https" ∈ uses_netloc)) with true.
  change (("/v1/" +:+ rest =? "") && ("" =? "")) with false.
  change (Str.startswith "/" ("/v1/" +:+ rest)) with true.
  cbn iota beta. cbn [negb andb String.eqb].
  change (Str.split "/" ("/v1/" +:+ rest)) with ("" :: "v1" :: Str.split "/" rest).
  cbn [fold_left]. change (resolve_segment (resolve_segment [] "") "v1") with ["v1"; ""].
  rewrite (resolve_kept _ _ Hsegs).
  assert (Hlast : bool_decide (List.last ("" :: "v1" :: Str.split "/" rest) ""
                               ∈ ["."; ".."]) = false).
  { pose proof (split_nonempty "/" rest) as Hne.
    destruct (Str.split "/" rest) as [|x xs] eqn:E; [contradiction|].
    change (List.last ("" :: "v1" :: x :: xs) "") with (List.last (x :: xs) "").
    apply bool_decide_eq_false_2. intros Hin.
    assert (Hk : kept_segment (List.last (x :: xs) "") = true).
    { rewrite Forall_forall in Hsegs. apply Hsegs.
      rewrite (app_removelast_last "" (l := x :: xs)) at 2 by discriminate.
      apply elem_of_app. right. apply elem_of_cons. left. reflexivity. }
    rewrite !elem_of_cons, elem_of_nil in Hin.
    destruct Hin as [H|[H|[]]]; rewrite H in Hk; discriminate Hk. }
  rewrite Hlast.
  rewrite List.rev_app_distr, List.rev_involutive. cbn [List.rev app].
  assert (Hjoin : Str.join "/" ("" :: "v1" :: Str.split "/" rest) = "/v1/" +:+ rest).
  { rewrite <- (join_split "/" rest) at 2.
    pose proof (split_nonempty "/" rest) as Hne.
    destruct (Str.split "/" rest) as [|x xs]; [contradiction|reflexivity]. }
  rewrite Hjoin.
  unfold urlunparse, urlunsplit, query_suffix.
  cbn [url_scheme url_netloc url_path url_params url_query url_fragment].
  destruct (query =? ""); [rewrite (app_nil_r_str rest)|]; reflexivity.
Qed.

Lemma identifier_facts qci_id :
  identifier qci_id = true ->
  Str.all path_char qci_id = true /\ Str.contains "/" qci_id = false
  /\ kept_segment qci_id = true.
Proof.
  unfold identifier. intros [[H1 H2]%andb_true_iff H3]%andb_true_iff.
  apply negb_true_iff in H2. auto.
Qed.

(** The URL of a submission. *)
Lemma datapackage_url qci_id :
  identifier qci_id = true ->
  urljoin BASE_URL ("/v1/datapackages/" +:+ qci_id)
  = "https://api.ingenuity.com/v1/datapackages/" +:+ qci_id.
Proof.
  intros (Hchars & Hsep & Hkept)%identifier_facts.
  pose proof (urljoin_v1 ("datapackages/" +:+ qci_id) "") as H.
  unfold query_suffix in H. cbn [String.eqb] in H.
  rewrite !app_nil_r_str in H. apply H; try reflexivity.
  - rewrite all_app, Hchars. reflexivity.
  - change ("datapackages/" +:+ qci_id) with ("datapackages" +:+ String "/" qci_id).
    rewrite split_sep_app, (split_none _ _ Hsep).
    repeat constructor. exact Hkept.
Qed.

(** The URL of an export in a view. *)
Lemma export_url qci_id view access_token :
  identifier qci_id = true ->
  Str.contains "#" (view +:+ "&access_token=" +:+ access_token) = false ->
  Str.remove is_unsafe_url_byte (view +:+ "&access_token=" +:+ access_token)
  = view +:+ "&access_token=" +:+ access_token ->
  urljoin BASE_URL
    ("/v1/export/" +:+ qci_id +:+ "?view=" +:+ view +:+ "&access_token=" +:+ access_token)
  = "https://api.ingenuity.com/v1/export/" +:+ qci_id +:+ "?view=" +:+ view
    +:+ "&access_token=" +:+ access_token.
Proof.
  intros (Hchars & Hsep & Hkept)%identifier_facts Hhash Hsafe.
  apply (urljoin_v1 ("export/" +:+ qci_id)
           ("view=" +:+ view +:+ "&access_token=" +:+ access_token)).
  - rewrite all_app, Hchars. reflexivity.
  - change ("export/" +:+ qci_id) with ("export" +:+ String "/" qci_id).
    rewrite split_sep_app, (split_none _ _ Hsep).
    repeat constructor. exact Hkept.
  - rewrite contains_app, Hhash. reflexivity.
  - rewrite remove_app, Hsafe. reflexivity.
Qed.

(** ** The wrappers that decode JSON *)

Lemma get_json_run url access_token w :
  bind (requests_get url ∅ {[ "Authorization" := "Bearer " +:+ access_token ]}) resp_json w
  = (decoded (server w (sent w) (bearer_get url access_token)),
     set_sent (sent w ++ [bearer_get url access_token]) w).
Proof.
  unfold bind, requests_get, request, resp_json, decoded. fold (bearer_get url access_token).
  destruct (server w (sent w) _) as [resp|e]; [|reflexivity].
  destruct (json resp); reflexivity.
Qed.

(** X1: [list_tests], [check_submission_status] and
    [get_test_product_profiles] return what the body of the answer decodes
    to, whatever its status code; a body that is not JSON raises
    JSONDecodeError and a failure of the transport is passed on. *)
Theorem json_wrappers_outcome
    (w : World) (access_token qci_id state start_date end_date sort_by : string) :
  fst (list_tests access_token state start_date end_date sort_by w)
  = decoded (server w (sent w)
               (bearer_get (list_tests_url state start_date end_date sort_by)
                  access_token))
  /\ fst (check_submission_status access_token qci_id w)
     = decoded (server w (sent w)
                  (bearer_get (urljoin BASE_URL ("/v1/datapackages/" +:+ qci_id))
                     access_token))
  /\ fst (get_test_product_profiles access_token w)
     = decoded (server w (sent w)
                  (bearer_get "https://api.ingenuity.com/v1/testProductProfiles"
                     access_token)).
Proof.
  unfold list_tests, check_submission_status, get_test_product_profiles.
  cbv zeta. rewrite !get_json_run. repeat split.
Qed.

(** X2: every wrapper that only reads from the service leaves the world as
    it was but for one request appended to those sent: it sends exactly one
    request however the call ends, writes no file and touches no object. *)
Theorem readers_only_send
    (w : World) (parse : string -> result pyval)
    (client_id client_secret access_token qci_id state start_date end_date sort_by : string) :
  (exists r, snd (get_access_token client_id client_secret w)
             = set_sent (sent w ++ [r]) w)
  /\ (exists r, snd (list_tests access_token state start_date end_date sort_by w)
                = set_sent (sent w ++ [r]) w)
  /\ (exists r, snd (check_submission_status access_token qci_id w)
                = set_sent (sent w ++ [r]) w)
  /\ (exists r, snd (get_test_product_profiles access_token w)
                = set_sent (sent w ++ [r]) w)
  /\ (exists r, snd (get_test_result_xml parse access_token qci_id w)
                = set_sent (sent w ++ [r]) w).
Proof.
  repeat split.
  - eexists. unfold get_access_token, bind, requests_get, request.
    destruct (server w (sent w) _) as [resp|e]; [|reflexivity].
    unfold resp_json. destruct (json resp) as [body|]; [|reflexivity].
    unfold ret at 1. destruct body; try reflexivity.
    cbn [py_getitem]. destruct (m !! "access_token"); reflexivity.
  - eexists. unfold list_tests. cbv zeta. rewrite get_json_run. reflexivity.
  - eexists. unfold check_submission_status. cbv zeta. rewrite get_json_run. reflexivity.
  - eexists. unfold get_test_product_profiles. cbv zeta. rewrite get_json_run. reflexivity.
  - eexists. unfold get_test_result_xml, bind, requests_get, request, lift.
    destruct (server w (sent w) _) as [resp|e]; [|reflexivity].
    destruct (parse (content resp)); reflexivity.
Qed.

(** X3: for an identifier that makes one path segment, the status request
    goes to [/v1/datapackages/<identifier>]; the token travels in the header
    only, although [format] was handed it. *)
Theorem check_submission_status_request (w : World) (access_token qci_id : string) :
  identifier qci_id = true ->
  check_submission_status access_token qci_id w
  = (decoded (server w (sent w)
                (bearer_get ("https://api.ingenuity.com/v1/datapackages/" +:+ qci_id)
                   access_token)),
     set_sent
       (sent w ++ [bearer_get ("https://api.ingenuity.com/v1/datapackages/" +:+ qci_id)
                     access_token]) w).
Proof.
  intros Hid. unfold check_submission_status. cbv zeta.
  rewrite (datapackage_url qci_id Hid). apply get_json_run.
Qed.

Lemma check_submission_status_request_witness :
  identifier "DP_7276" = true
  /\ check_submission_status "8c1f0e" "DP_7276" sample_world
     = (Ok (PyDict {[ "access_token" := PyStr "8c1f0e"; "expires_in" := PyInt 3600 ]}),
        set_sent [bearer_get "https://api.ingenuity.com/v1/datapackages/DP_7276" "8c1f0e"]
          sample_world).
Proof.
  split; [reflexivity|].
  exact (check_submission_status_request sample_world "8c1f0e" "DP_7276" eq_refl).
Defined.

(** X4: the report export asks for the view [reportXml] of
    [/v1/export/<identifier>] with the token in the query as well as in the
    header, and returns what [xmltodict.parse] makes of the body, whatever
    the status code; a failure of the parser is passed on after the request
    has gone out. *)
Theorem get_test_result_xml_request
    (w : World) (parse : string -> result pyval) (access_token qci_id : string) :
  identifier qci_id = true ->
  plain access_token = true ->
  let r := bearer_get
             ("https://api.ingenuity.com/v1/export/" +:+ qci_id
              +:+ "?view=reportXml&access_token=" +:+ access_token) access_token in
  get_test_result_xml parse access_token qci_id w
  = (match server w (sent w) r with
     | Ok resp => parse (content resp)
     | Raise e => Raise e
     end,
     set_sent (sent w ++ [r]) w).
Proof.
  intros Hid Htok r. unfold get_test_result_xml. cbv zeta.
  assert (Hurl : urljoin BASE_URL
                   ("/v1/export/" +:+ qci_id +:+ "?view=" +:+ "reportXml"
                    +:+ "&access_token=" +:+ access_token)
                 = "https://api.ingenuity.com/v1/export/" +:+ qci_id
                   +:+ "?view=reportXml&access_token=" +:+ access_token).
  { apply (export_url qci_id "reportXml" access_token Hid).
    - rewrite !contains_app, (plain_no_hash _ Htok). reflexivity.
    - rewrite !remove_app, (plain_remove _ Htok). reflexivity. }
  rewrite Hurl. subst r. unfold bind, requests_get, request, lift, bearer_get.
  destruct (server w (sent w) _) as [resp|e]; [|reflexivity].
  destruct (parse (content resp)); reflexivity.
Qed.

Lemma get_test_result_xml_request_witness :
  identifier "DP_7276" = true /\ plain "8c1f0e" = true
  /\ get_test_result_xml (fun xml => Ok (PyDict {[ "report" := PyStr xml ]}))
       "8c1f0e" "DP_7276" sample_world
     = (Ok (PyDict {[ "report" := PyStr "%PDF-1.4" ]}),
        set_sent
          [bearer_get
             "https://api.ingenuity.com/v1/export/DP_7276?view=reportXml&access_token=8c1f0e"
             "8c1f0e"] sample_world).
Proof.
  split; [reflexivity|]. split; [reflexivity|].
  exact (get_test_result_xml_request sample_world _ "8c1f0e" "DP_7276" eq_refl eq_refl).
Defined.

(** ** The token, when the answer is not the expected one *)

(** X5: [get_access_token] checks nothing of the answer: a JSON object
    without the key [access_token] raises KeyError, a body that is not JSON
    raises JSONDecodeError, and a failure of the transport is passed on; the
    request has gone out in each case. *)
Theorem get_access_token_failures
    (w : World) (client_id client_secret : string) :
  let r := {| req_method := "GET";
              req_url := "https://api.ingenuity.com/v1/oauth/access_token";
              req_params := {[ "grant_type" := "client_credentials";
                               "client_id" := client_id;
                               "client_secret" := client_secret ]};
              req_headers := ∅; req_files := ∅ |} in
  let w' := set_sent (sent w ++ [r]) w in
  (forall resp body,
     server w (sent w) r = Ok resp -> json resp = Some (PyDict body) ->
     body !! "access_token" = None ->
     get_access_token client_id client_secret w = (Raise (KeyError "access_token"), w'))
  /\ (forall resp,
        server w (sent w) r = Ok resp -> json resp = None ->
        get_access_token client_id client_secret w = (Raise JSONDecodeError, w'))
  /\ (forall e,
        server w (sent w) r = Raise e ->
        get_access_token client_id client_secret w = (Raise e, w')).
Proof.
  intros r w'. unfold get_access_token. rewrite token_url.
  unfold bind, requests_get, request. fold r. repeat split.
  - intros resp body -> Hjson Hkey. unfold resp_json. rewrite Hjson.
    unfold ret at 1. cbn [py_getitem]. rewrite Hkey. reflexivity.
  - intros resp -> Hjson. unfold resp_json. rewrite Hjson. reflexivity.
  - intros e ->. reflexivity.
Qed.

Lemma get_access_token_failures_witness :
  get_access_token "lab-7" "wrong"
    (sample_world_with (fun _ _ => Ok error_response) (fun _ => true))
  = (Raise (KeyError "access_token"),
     set_sent
       [{| req_method := "GET";
           req_url := "https://api.ingenuity.com/v1/oauth/access_token";
           req_params := {[ "grant_type" := "client_credentials";
                            "client_id" := "lab-7"; "client_secret" := "wrong" ]};
           req_headers := ∅; req_files := ∅ |}]
       (sample_world_with (fun _ _ => Ok error_response) (fun _ => true)))
  /\ fst (get_access_token "lab-7" "wrong"
            (sample_world_with (fun _ _ => Ok html_response) (fun _ => true)))
     = Raise JSONDecodeError
  /\ fst (get_access_token "lab-7" "wrong"
            (sample_world_with (fun _ _ => Raise (RequestException "timed out"))
               (fun _ => true)))
     = Raise (RequestException "timed out").
Proof.
  split; [|split].
  - destruct (get_access_token_failures
                (sample_world_with (fun _ _ => Ok error_response) (fun _ => true))
                "lab-7" "wrong") as (H & _ & _).
    apply (H error_response {[ "error" := PyStr "invalid_client" ]}); reflexivity.
  - destruct (get_access_token_failures
                (sample_world_with (fun _ _ => Ok html_response) (fun _ => true))
                "lab-7" "wrong") as (_ & H & _).
    rewrite (H html_response); reflexivity.
  - destruct (get_access_token_failures
                (sample_world_with (fun _ _ => Raise (RequestException "timed out"))
                   (fun _ => true))
                "lab-7" "wrong") as (_ & _ & H).
    rewrite (H (RequestException "timed out")); reflexivity.
Defined.

(** ** Uploading what is not a package *)

Lemma str_of_plain_value w v :
  isinstance_DataPackage v = false -> exists s, DataPackage.str v w = (Ok s, w).
Proof.
  intros Hv. destruct v; try discriminate Hv; eexists; reflexivity.
Qed.

(** X6: a value that is not a [DataPackage] is refused by
    [validate_datapackage] and by [upload_datapackage] with ValueError, and
    the world stays as it was: no temporary file, no request. *)
Theorem upload_rejects_non_package (w : World) (v : pyval) :
  isinstance_DataPackage v = false ->
  exists msg,
    validate_datapackage v w = (Raise (ValueError msg), w)
    /\ upload_datapackage v w = (Raise (ValueError msg), w).
Proof.
  intros Hv. destruct (str_of_plain_value w v Hv) as [s Hs].
  exists ("DataPackage failed validation (not a DataPackage): " +:+ s +:+ "").
  assert (Hval : validate_datapackage v w
                 = (Raise (ValueError ("DataPackage failed validation (not a DataPackage): "
                                       +:+ s +:+ "")), w)).
  { unfold validate_datapackage. rewrite Hv. cbn [negb].
    unfold DataPackage.format. unfold bind at 1. unfold bind at 1. rewrite Hs.
    reflexivity. }
  split; [exact Hval|].
  unfold upload_datapackage. rewrite (bind_raise _ _ _ _ _ Hval). reflexivity.
Qed.

Lemma upload_rejects_non_package_witness :
  isinstance_DataPackage (PyStr "COtGx1234") = false
  /\ exists msg,
       validate_datapackage (PyStr "COtGx1234") sample_world
       = (Raise (ValueError msg), sample_world)
       /\ upload_datapackage (PyStr "COtGx1234") sample_world
          = (Raise (ValueError msg), sample_world).
Proof.
  split; [reflexivity|].
  exact (upload_rejects_non_package sample_world (PyStr "COtGx1234") eq_refl).
Defined.

(** ** The report, beyond the default name *)

Lemma requests_get_bearer url access_token w :
  requests_get url ∅ {[ "Authorization" := "Bearer " +:+ access_token ]} w
  = (server w (sent w) (bearer_get url access_token),
     set_sent (sent w ++ [bearer_get url access_token]) w).
Proof. reflexivity. Qed.

(** The run of [get_report_pdf], step by step. *)
Lemma get_report_pdf_run w access_token qci_id output_pdf_filename :
  let r := bearer_get
             (urljoin BASE_URL
                ("/v1/export/" +:+ qci_id +:+ "?view=" +:+ "pdf"
                 +:+ "&access_token=" +:+ access_token)) access_token in
  let w1 := set_sent (sent w ++ [r]) w in
  let name :=
    if negb (output_pdf_filename =? "") then output_pdf_filename
    else qci_id +:+ "_" +:+ strftime_Ymd (today w) +:+ ".pdf" in
  let path := os_path.abspath (getcwd w) name in
  get_report_pdf access_token qci_id output_pdf_filename w
  = match server w (sent w) r with
    | Raise e => (Raise e, w1)
    | Ok resp =>
        if writable w path then
          (Ok path, set_disk (<[path := content resp]> (disk w)) w1)
        else (Raise (OSError name), w1)
    end.
Proof.
  intros r w1 name path. unfold get_report_pdf.
  unfold bind at 1. rewrite requests_get_bearer. fold r. fold w1.
  destruct (server w (sent w) r) as [resp|e]; [|reflexivity].
  unfold bind at 1.
  assert (Hname :
    (if negb (output_pdf_filename =? "") then ret output_pdf_filename
     else bind datetime_now (fun now =>
            ret (qci_id +:+ "_" +:+ strftime_Ymd now +:+ ".pdf"))) w1
    = (Ok name, w1)).
  { unfold name. destruct (output_pdf_filename =? ""); reflexivity. }
  rewrite Hname. unfold bind at 1. unfold write_binary.
  change (getcwd w1) with (getcwd w). change (writable w1) with (writable w).
  change (disk w1) with (disk w). fold path.
  destruct (writable w path); reflexivity.
Qed.





(** X9: two exports of the same identifier on the same day, both under the
    default name, go to the same file: the second report replaces the
    first. *)
Theorem get_report_pdf_same_day_overwrites
    (w : World) (access_token qci_id : string) (first second : Response) :
  let r := bearer_get
             (urljoin BASE_URL
                ("/v1/export/" +:+ qci_id +:+ "?view=" +:+ "pdf"
                 +:+ "&access_token=" +:+ access_token)) access_token in
  let path := os_path.abspath (getcwd w)
                (qci_id +:+ "_" +:+ strftime_Ymd (today w) +:+ ".pdf") in
  server w (sent w) r = Ok first ->
  server w (sent w ++ [r]) r = Ok second ->
  writable w path = true ->
  exists w1 w2,
    get_report_pdf access_token qci_id "" w = (Ok path, w1)
    /\ get_report_pdf access_token qci_id "" w1 = (Ok path, w2)
    /\ disk w1 !! path = Some (content first)
    /\ disk w2 = <[path := content second]> (disk w).
Proof.
  intros r path Hfirst Hsecond Hwritable.
  pose proof (get_report_pdf_run w access_token qci_id "") as Hrun1.
  cbv zeta in Hrun1. fold r in Hrun1. cbn [negb String.eqb] in Hrun1.
  fold path in Hrun1. rewrite Hfirst, Hwritable in Hrun1.
  eexists. eexists. split; [exact Hrun1|].
  set (w1 := set_disk _ _).
  pose proof (get_report_pdf_run w1 access_token qci_id "") as Hrun2.
  cbv zeta in Hrun2. fold r in Hrun2. cbn [negb String.eqb] in Hrun2.
  change (today w1) with (today w) in Hrun2. change (getcwd w1) with (getcwd w) in Hrun2.
  fold path in Hrun2.
  change (server w1) with (server w) in Hrun2.
  change (sent w1) with (sent w ++ [r])%list in Hrun2.
  change (writable w1) with (writable w) in Hrun2.
  rewrite Hsecond, Hwritable in Hrun2.
  split; [exact Hrun2|]. split.
  - apply lookup_insert_eq.
  - cbn [disk set_disk]. unfold w1. cbn [disk set_disk set_sent].
    apply insert_insert_eq.
Qed.

Lemma get_report_pdf_same_day_overwrites_witness :
  let answers (earlier : list Request) (_ : Request) : result Response :=
    match earlier with
    | [] => Ok sample_response
    | _ :: _ => Ok html_response
    end in
  let w := sample_world_with answers (fun _ => true) in
  exists w1 w2,
    get_report_pdf "8c1f0e" "DP_7276" "" w = (Ok "/home/lab/DP_7276_2024-03-09.pdf", w1)
    /\ get_report_pdf "8c1f0e" "DP_7276" "" w1 = (Ok "/home/lab/DP_7276_2024-03-09.pdf", w2)
    /\ disk w1 !! "/home/lab/DP_7276_2024-03-09.pdf" = Some "%PDF-1.4"
    /\ disk w2 = {[ "/home/lab/DP_7276_2024-03-09.pdf" := "<html>Bad Gateway</html>" ]}.
Proof.
  intros answers w.
  destruct (get_report_pdf_same_day_overwrites w "8c1f0e" "DP_7276"
              sample_response html_response eq_refl eq_refl eq_refl)
    as (w1 & w2 & H1 & H2 & H3 & H4).
  exists w1, w2. split; [exact H1|]. split; [exact H2|]. split; [exact H3|].
  rewrite H4. reflexivity.
Defined.

(** The absolute URL of a reference under [/v1/] splits into host, path and
    query. *)
Lemma urlsplit_v1_url rest query :
  Str.all path_char rest = true ->
  Str.contains "#" query = false ->
  Str.remove is_unsafe_url_byte query = query ->
  urlsplit ("https://api.ingenuity.com/v1/" +:+ rest +:+ query_suffix query) ""
  = {| url_scheme := "https"; url_netloc := "api.ingenuity.com";
       url_path := "/v1/" +:+ rest; url_params := ""; url_query := query;
       url_fragment := "" |}.
Proof.
  intros Hrest Hhash Hsafe. unfold urlsplit. cbv zeta.
  set (tail := rest +:+ query_suffix query).
  change (Str.lstrip is_c0_control_or_space ("https://api.ingenuity.com/v1/" +:+ tail))
    with ("https://api.ingenuity.com/v1/" +:+ tail).
  assert (Hq : Str.remove is_unsafe_url_byte (query_suffix query) = query_suffix query).
  { unfold query_suffix. destruct (query =? ""); [reflexivity|].
    rewrite remove_app, Hsafe. reflexivity. }
  assert (Htail : Str.remove is_unsafe_url_byte tail = tail).
  { unfold tail. rewrite remove_app, (path_chars_safe rest Hrest), Hq. reflexivity. }
  rewrite remove_app, Htail.
  change (Str.remove is_unsafe_url_byte "https://api.ingenuity.com/v1/")
    with "https://api.ingenuity.com/v1/".
  change (split_scheme ("https://api.ingenuity.com/v1/" +:+ tail))
    with (Some ("https", "//api.ingenuity.com/v1/" +:+ tail)).
  cbn iota beta.
  change (Str.startswith "//" ("//api.ingenuity.com/v1/" +:+ tail)) with true.
  cbn iota beta.
  change (splitnetloc ("//api.ingenuity.com/v1/" +:+ tail))
    with ("api.ingenuity.com", "/v1/" +:+ tail).
  cbn iota beta.
  assert (Hnohash : Str.contains "#" ("/v1/" +:+ tail) = false).
  { unfold tail, query_suffix.
    rewrite !contains_app, (path_char_no "#" rest Hrest eq_refl).
    destruct (query =? ""); [reflexivity|]. rewrite contains_app, Hhash. reflexivity. }
  rewrite (partition_none "#" _ Hnohash). cbn iota beta.
  assert (Hpart : Str.partition "?" ("/v1/" +:+ tail)
                  = if query =? "" then None else Some ("/v1/" +:+ rest, query)).
  { unfold tail, query_suffix. rewrite <- app_assoc_str.
    destruct (query =? "").
    - apply partition_none. rewrite !contains_app, (path_char_no "?" rest Hrest eq_refl).
      reflexivity.
    - rewrite partition_app
        by (rewrite contains_app, (path_char_no "?" rest Hrest eq_refl); reflexivity).
      change (Str.partition "?" ("?" +:+ query)) with (Some ("", query)).
      cbn iota beta. rewrite app_nil_r_str. reflexivity. }
  rewrite Hpart. unfold tail, query_suffix.
  destruct (query =? "") eqn:E; cbn iota beta.
  - apply String.eqb_eq in E as ->. rewrite !app_nil_r_str. reflexivity.
  - reflexivity.
Qed.

(** X10: the PDF export puts the access token into the URL of its request,
    as the query parameter [access_token] after [view=pdf], besides sending
    it in the Authorization header. *)
Theorem get_report_pdf_token_in_url
    (w : World) (access_token qci_id output_pdf_filename : string) :
  identifier qci_id = true ->
  plain access_token = true ->
  exists r,
    sent (snd (get_report_pdf access_token qci_id output_pdf_filename w))
    = (sent w ++ [r])%list
    /\ req_url r = "https://api.ingenuity.com/v1/export/" +:+ qci_id
                   +:+ "?view=pdf&access_token=" +:+ access_token
    /\ query_fields (req_url r) = [("view", "pdf"); ("access_token", access_token)]
    /\ req_headers r !! "Authorization" = Some ("Bearer " +:+ access_token).
Proof.
  intros Hid Htok.
  assert (Hurl : urljoin BASE_URL
                   ("/v1/export/" +:+ qci_id +:+ "?view=" +:+ "pdf"
                    +:+ "&access_token=" +:+ access_token)
                 = "https://api.ingenuity.com/v1/export/" +:+ qci_id
                   +:+ "?view=pdf&access_token=" +:+ access_token).
  { apply (export_url qci_id "pdf" access_token Hid).
    - rewrite !contains_app, (plain_no_hash _ Htok). reflexivity.
    - rewrite !remove_app, (plain_remove _ Htok). reflexivity. }
  pose proof (get_report_pdf_run w access_token qci_id output_pdf_filename) as Hrun.
  cbv zeta in Hrun. rewrite Hurl in Hrun.
  eexists. split; [|split; [|split]].
  - rewrite Hrun. destruct (server w (sent w) _) as [resp|e]; [|reflexivity].
    destruct (writable w _); reflexivity.
  - reflexivity.
  - cbn [req_url bearer_get]. unfold query_fields.
    destruct (identifier_facts _ Hid) as (Hchars & _ & _).
    assert (Hsplit :
      urlsplit ("https://api.ingenuity.com/v1/export/" +:+ qci_id
                +:+ "?view=pdf&access_token=" +:+ access_token) ""
      = {| url_scheme := "https"; url_netloc := "api.ingenuity.com";
           url_path := "/v1/export/" +:+ qci_id; url_params := "";
           url_query := "view=pdf" +:+ String "&" ("access_token=" +:+ access_token);
           url_fragment := "" |}).
    { apply (urlsplit_v1_url ("export/" +:+ qci_id)
               ("view=pdf&access_token=" +:+ access_token)).
      - rewrite all_app, Hchars. reflexivity.
      - rewrite contains_app, (plain_no_hash _ Htok). reflexivity.
      - rewrite remove_app, (plain_remove _ Htok). reflexivity. }
    rewrite Hsplit. cbn [url_query]. rewrite split_sep_app.
    rewrite (split_none "&" ("access_token=" +:+ access_token))
      by (rewrite contains_app, (plain_no_amp _ Htok); reflexivity).
    reflexivity.
  - apply lookup_singleton_eq.
Qed.

Lemma get_report_pdf_token_in_url_witness :
  identifier "DP_7276" = true /\ plain "8c1f0e" = true
  /\ exists r,
       sent (snd (get_report_pdf "8c1f0e" "DP_7276" "" sample_world)) = [r]
       /\ req_url r
          = "https://api.ingenuity.com/v1/export/DP_7276?view=pdf&access_token=8c1f0e"
       /\ query_fields (req_url r) = [("view", "pdf"); ("access_token", "8c1f0e")].
Proof.
  split; [reflexivity|]. split; [reflexivity|].
  destruct (get_report_pdf_token_in_url sample_world "8c1f0e" "DP_7276" "" eq_refl eq_refl)
    as (r & H1 & H2 & H3 & _).
  exists r. split; [exact H1|]. split; [exact H2|exact H3].
Defined.

(** ** Validation, once more *)

Lemma getattr_plain_world l name w :
  snd (DataPackage.getattr_plain l name w) = w.
Proof.
  unfold DataPackage.getattr_plain, bind, DataPackage.instance_dict.
  destruct (heap w !! l) as [d|]; [|reflexivity].
  destruct (d !! name); [reflexivity|].
  destruct (bool_decide (name ∈ DataPackage.methods)); reflexivity.
Qed.

(** Reading an attribute changes nothing at all. *)
Lemma getattr_world l name w : snd (DataPackage.getattr l name w) = w.
Proof.
  unfold DataPackage.getattr, DataPackage.access_token.
  destruct (name =? "access_token"); apply getattr_plain_world.
Qed.

(** X11: the second [if not self.access_token] block of [validate] is dead:
    on every world and for every [debug], [validate] does what it would do
    with that block removed. *)
Theorem validate_second_check_dead (w : World) (l : loc) (debug : pyval) :
  DataPackage.validate l debug w = validate_once l debug w.
Proof.
  unfold DataPackage.validate, validate_once.
  pose proof (getattr_world l "access_token" w) as Hw.
  destruct (DataPackage.getattr l "access_token" w) as [[token|e] w1] eqn:E;
    cbn [snd] in Hw; subst w1.
  - rewrite !(bind_ok _ _ _ _ _ E).
    destruct (truthy token) eqn:Ht; cbn [negb]; [|reflexivity].
    rewrite (bind_ok _ _ _ _ _ E), Ht. reflexivity.
  - rewrite !(bind_raise _ _ _ _ _ E). reflexivity.
Qed.

(** X12: a package whose token is true passes [validate] with None whatever
    [debug] is: neither identifier is looked at. *)
Theorem validate_true_token
    (w : World) (l : loc) (d : gmap string pyval) (token debug : pyval) :
  heap w !! l = Some d ->
  d !! "_access_token" = Some token ->
  truthy token = true ->
  DataPackage.validate l debug w = (Ok PyNone, w).
Proof.
  intros Hl Ht Htrue. unfold DataPackage.validate.
  rewrite (bind_ok _ _ _ _ _ (access_token_found _ _ _ _ Hl Ht)).
  rewrite Htrue. cbn [negb].
  rewrite (bind_ok _ _ _ _ _ (access_token_found _ _ _ _ Hl Ht)).
  rewrite Htrue. reflexivity.
Qed.

Lemma validate_true_token_witness :
  heap world_with_package !! 0
  = Some {[ "_access_token" := PyStr "8c1f0e"; "_primary_id" := PyStr "COtGx1234";
            "_secondary_id" := PyStr "S-17" ]}
  /\ DataPackage.validate 0 (PyBool true) world_with_package
     = (Ok PyNone, world_with_package).
Proof.
  split; [reflexivity|].
  eapply validate_true_token; reflexivity.
Defined.

(** ** Construction *)

Lemma bind_keywords_type_error params kws acc e :
  bind_keywords params kws acc = Raise e -> exists msg, e = TypeError msg.
Proof.
  revert acc. induction kws as [|[k v] kws IH]; intros acc; cbn [bind_keywords].
  - discriminate.
  - destruct (bool_decide (k ∈ params)); [|intros [= <-]; eexists; reflexivity].
    destruct (acc !! k); [intros [= <-]; eexists; reflexivity|]. apply IH.
Qed.

Lemma bind_defaults_type_error params defaults acc e :
  bind_defaults params defaults acc = Raise e -> exists msg, e = TypeError msg.
Proof.
  revert acc. induction params as [|p params IH]; intros acc; cbn [bind_defaults].
  - discriminate.
  - destruct (acc !! p); [apply IH|].
    destruct (defaults !! p); [apply IH|]. intros [= <-]. eexists. reflexivity.
Qed.

Lemma bind_args_type_error params defaults args e :
  bind_args params defaults args = Raise e -> exists msg, e = TypeError msg.
Proof.
  unfold bind_args.
  destruct (bind_positional params (positional args) ∅) as [acc rest].
  destruct (bind_keywords params (keywords args) acc) as [acc'|e'] eqn:E.
  - destruct rest; [apply bind_defaults_type_error|].
    intros [= <-]. eexists. reflexivity.
  - intros [= <-]. exact (bind_keywords_type_error _ _ _ _ E).
Qed.

(** X13: whatever it is called with, the constructor either raises TypeError
    and leaves the world as it was, or returns a reference to one new
    object, at an address that was free, whose dictionary holds exactly the
    three underscored attributes; every other object, the disk and the
    requests sent are as before. *)
Theorem construction_outcomes (w : World) (args : Args) :
  (exists msg, DataPackage.new args w = (Raise (TypeError msg), w))
  \/ (exists l a p s,
        heap w !! l = None
        /\ DataPackage.new args w
           = (Ok (PyRef l),
              set_heap (<[l := <["_secondary_id" := s]>
                                 (<["_primary_id" := p]>
                                    (<["_access_token" := a]> ∅))]> (heap w)) w)).
Proof.
  unfold DataPackage.new. unfold bind at 1. unfold lift.
  destruct (bind_args ["access_token"; "primary_id"; "secondary_id"] ∅ args)
    as [bound|e] eqn:E.
  - right. exists (fresh (dom (heap w))), (arg bound "access_token"),
      (arg bound "primary_id"), (arg bound "secondary_id").
    split.
    + apply not_elem_of_dom. apply is_fresh.
    + unfold DataPackage.__init__, DataPackage.setattr, DataPackage.instance_dict,
        bind, modify, ret.
      cbn -[fresh dom insert lookup].
      rewrite !lookup_insert_eq. cbn -[fresh dom insert lookup].
      rewrite !lookup_insert_eq. cbn -[fresh dom insert lookup].
      rewrite !lookup_insert_eq. cbn -[fresh dom insert lookup].
      unfold set_heap; cbn -[fresh dom insert lookup].
      rewrite !insert_insert_eq. reflexivity.
  - left. destruct (bind_args_type_error _ _ _ _ E) as [msg ->].
    exists msg. reflexivity.
Qed.

Lemma permutation_of_two {A} (x y : A) (l : list A) :
  l ≡ₚ [x; y] -> l = [x; y] \/ l = [y; x].
Proof.
  intros H. pose proof (Permutation_length H) as Hlen.
  destruct l as [|u [|v [|? ?]]]; try discriminate Hlen.
  assert (Hu : u ∈ [x; y]) by (rewrite <- H; left).
  assert (Hv : v ∈ [x; y]) by (rewrite <- H; right; left).
  assert (Hx : x ∈ [u; v]) by (rewrite H; left).
  assert (Hy : y ∈ [u; v]) by (rewrite H; right; left).
  rewrite !elem_of_cons, elem_of_nil in Hu, Hv, Hx, Hy.
  destruct Hu as [->|[->|[]]], Hv as [->|[->|[]]]; auto.
  - destruct Hy as [->|[->|[]]]; auto.
  - destruct Hx as [->|[->|[]]]; auto.
Qed.

Lemma permutation_of_three {A} (x y z : A) (l : list A) :
  l ≡ₚ [x; y; z] ->
  l = [x; y; z] \/ l = [x; z; y] \/ l = [y; x; z]
  \/ l = [y; z; x] \/ l = [z; x; y] \/ l = [z; y; x].
Proof.
  intros H. pose proof (Permutation_length H) as Hlen.
  destruct l as [|u l]; [discriminate Hlen|].
  assert (Hu : u ∈ [x; y; z]) by (rewrite <- H; left).
  rewrite !elem_of_cons, elem_of_nil in Hu.
  destruct Hu as [->|[->|[->|[]]]].
  - apply Permutation_cons_inv in H.
    destruct (permutation_of_two _ _ _ H) as [->| ->]; auto.
  - assert (H' : l ≡ₚ [x; z]).
    { apply (Permutation_cons_inv (a := y)). rewrite H. apply Permutation_swap. }
    destruct (permutation_of_two _ _ _ H') as [->| ->]; auto 6.
  - assert (H' : l ≡ₚ [x; y]).
    { apply (Permutation_cons_inv (a := z)). rewrite H.
      symmetry. apply (Permutation_cons_append [x; y] z). }
    destruct (permutation_of_two _ _ _ H') as [->| ->]; auto 7.
Qed.

(** X14: a call that supplies each of the three parameters once, the first
    [k] of them by position and the others by keyword in any order, builds
    the same object as the call with three positional arguments. *)
Theorem construction_by_keyword
    (w : World) (a p s : pyval) (k : nat) (kws : list (string * pyval)) :
  kws ≡ₚ drop k [("access_token", a); ("primary_id", p); ("secondary_id", s)] ->
  DataPackage.new {| positional := take k [a; p; s]; keywords := kws |} w
  = construct a p s w.
Proof.
  intros H. destruct k as [|[|[|k]]]; cbn [drop take] in *.
  - destruct (permutation_of_three _ _ _ _ H) as [->|[->|[->|[->|[->| ->]]]]];
      reflexivity.
  - destruct (permutation_of_two _ _ _ H) as [->| ->]; reflexivity.
  - apply Permutation_singleton_r in H as ->. reflexivity.
  - rewrite drop_nil in H. rewrite take_nil.
    apply Permutation_nil_r in H as ->. reflexivity.
Qed.

Lemma construction_by_keyword_witness :
  [("secondary_id", PyNone); ("primary_id", PyStr "COtGx1234")]
  ≡ₚ drop 1 [("access_token", PyStr ""); ("primary_id", PyStr "COtGx1234");
             ("secondary_id", PyNone)]
  /\ snd (DataPackage.new
            {| positional := [PyStr ""];
               keywords := [("secondary_id", PyNone); ("primary_id", PyStr "COtGx1234")] |}
            sample_world)
     = world_with_tokenless_package.
Proof.
  assert (H : [("secondary_id", PyNone); ("primary_id", PyStr "COtGx1234")]
              ≡ₚ drop 1 [("access_token", PyStr ""); ("primary_id", PyStr "COtGx1234");
                         ("secondary_id", PyNone)])
    by apply Permutation_swap.
  split; [exact H|].
  unfold world_with_tokenless_package.
  rewrite <- (construction_by_keyword sample_world (PyStr "") (PyStr "COtGx1234") PyNone
                1 _ H).
  reflexivity.
Defined.

(** X15: what the constructor is given can be read back: the property
    [access_token] returns the token, [to_xml] a primary identifier that is
    a string; and the objects that were there before are untouched. *)
Theorem construct_then_read (w : World) (a p s : pyval) :
  let l := fresh (dom (heap w)) in
  let w' := snd (construct a p s w) in
  fst (construct a p s w) = Ok (PyRef l)
  /\ py_getattr (PyRef l) "access_token" w' = (Ok a, w')
  /\ py_getattr (PyRef l) "_primary_id" w' = (Ok p, w')
  /\ py_getattr (PyRef l) "_secondary_id" w' = (Ok s, w')
  /\ (forall text, p = PyStr text -> DataPackage.to_xml l w' = (Ok (PyStr text), w'))
  /\ (forall other, other <> l -> heap w' !! other = heap w !! other).
Proof.
  intros l w'.
  destruct (construct_attributes w a p s) as (d & Hl & Ha & Hp & Hs & _).
  fold l in Hl. fold w' in Hl.
  split; [rewrite construct_spec; reflexivity|].
  split; [exact (getattr_plain_found _ _ _ _ _ Hl Ha)|].
  split; [exact (getattr_plain_found _ _ _ _ _ Hl Hp)|].
  split; [exact (getattr_plain_found _ _ _ _ _ Hl Hs)|].
  split.
  - intros text ->. unfold DataPackage.to_xml.
    rewrite (bind_ok _ _ _ _ _ (getattr_plain_found _ _ _ _ _ Hl Hp)). reflexivity.
  - intros other Hother. unfold w'. rewrite construct_spec. cbn [snd heap set_heap].
    apply lookup_insert_ne. intros Heq. apply Hother. symmetry. exact Heq.
Qed.

(** ** Filter values are not escaped *)

Lemma app_sep_not_empty a c b : (a +:+ String c b =? "") = false.
Proof. destruct a; reflexivity. Qed.

Lemma join_split_last sep l x y :
  Str.join sep (l ++ [x +:+ sep +:+ y]) = Str.join sep (l ++ [x; y]).
Proof.
  rewrite join_snoc.
  change (l ++ [x; y])%list with (l ++ [x] ++ [y])%list.
  rewrite List.app_assoc, join_snoc, join_snoc.
  destruct l as [|z l]; cbn [app].
  - rewrite !app_nil_l, !app_assoc_str. reflexivity.
  - rewrite !app_assoc_str. reflexivity.
Qed.

Lemma filter_nonempty (l : list string) :
  Forall (fun f => negb (f =? "") = true) l ->
  List.filter (fun f => negb (f =? "")) l = l.
Proof.
  induction 1 as [|f l Hf _ IH]; [reflexivity|].
  cbn [List.filter]. rewrite Hf, IH. reflexivity.
Qed.

(** X16: a filter value goes into the URL as it is: an ampersand inside the
    sort order ends the [sort] parameter and starts another one, of the
    caller's choosing. *)
Theorem list_tests_value_not_escaped
    (state start_date end_date order name value : string) :
  plain state = true -> plain start_date = true -> plain end_date = true ->
  plain order = true -> plain name = true -> plain value = true ->
  Str.contains "=" name = false ->
  query_fields
    (list_tests_url state start_date end_date (order +:+ "&" +:+ name +:+ "=" +:+ value))
  = (("state", state)
     :: supplied [("startReceivedDate", start_date); ("endReceivedDate", end_date)]
     ++ [("sort", order); (name, value)])%list.
Proof.
  intros Hs Hsd Hed Ho Hn Hv Hname.
  rewrite (list_tests_url_fields _ _ _ _ Hs).
  assert (Hsort : (order +:+ "&" +:+ name +:+ "=" +:+ value =? "") = false)
    by apply app_sep_not_empty.
  unfold optional_field at 3. rewrite Hsort.
  set (front := ("state=" +:+ state)
                :: optional_field "startReceivedDate" start_date
                ++ optional_field "endReceivedDate" end_date).
  change (("state=" +:+ state)
          :: optional_field "startReceivedDate" start_date
          ++ optional_field "endReceivedDate" end_date
          ++ ["sort" +:+ "=" +:+ order +:+ "&" +:+ name +:+ "=" +:+ value])%list
    with (("state=" +:+ state)
          :: optional_field "startReceivedDate" start_date
          ++ optional_field "endReceivedDate" end_date
          ++ [("sort=" +:+ order) +:+ "&" +:+ (name +:+ "=" +:+ value)])%list.
  replace (("state=" +:+ state)
           :: optional_field "startReceivedDate" start_date
           ++ optional_field "endReceivedDate" end_date
           ++ [("sort=" +:+ order) +:+ "&" +:+ (name +:+ "=" +:+ value)])%list
    with (front ++ [("sort=" +:+ order) +:+ "&" +:+ (name +:+ "=" +:+ value)])%list
    by (unfold front; rewrite <- List.app_comm_cons, <- List.app_assoc; reflexivity).
  rewrite join_split_last.
  set (fields := (front ++ ["sort=" +:+ order; name +:+ "=" +:+ value])%list).
  assert (Hplain : Forall (fun f => plain f = true) fields).
  { unfold fields, front. apply Forall_app_2.
    - constructor; [rewrite plain_app, Hs; reflexivity|].
      apply Forall_app_2; apply optional_field_plain;
        rewrite !plain_app; [rewrite Hsd|rewrite Hed]; reflexivity.
    - repeat constructor.
      + rewrite plain_app, Ho. reflexivity.
      + rewrite !plain_app, Hn, Hv. reflexivity. }
  unfold query_fields. rewrite urlsplit_clinical_url.
  - cbn [url_query]. rewrite split_join.
    + assert (Hfield : query_field (name +:+ "=" +:+ value) = (name, value)).
      { unfold query_field. rewrite (partition_app "=" name _ Hname).
        change (Str.partition "=" ("=" +:+ value)) with (Some ("", value)).
        cbn iota beta. rewrite app_nil_r_str. reflexivity. }
      assert (Hfront : List.map query_field front
                       = ("state", state)
                         :: supplied [("startReceivedDate", start_date);
                                      ("endReceivedDate", end_date)]).
      { unfold front, optional_field, supplied. cbn [List.filter snd].
        destruct (start_date =? ""), (end_date =? ""); reflexivity. }
      rewrite filter_nonempty.
      * unfold fields. rewrite List.map_app, Hfront. cbn [List.map].
        rewrite Hfield. reflexivity.
      * unfold fields, front. apply Forall_app_2.
        -- constructor; [reflexivity|].
           apply Forall_app_2; apply optional_field_plain; reflexivity.
        -- repeat constructor. apply negb_true_iff. apply app_sep_not_empty.
    + unfold fields, front. discriminate.
    + eapply Forall_impl; [exact Hplain|]. intros f. apply plain_no_amp.
  - apply contains_join; [reflexivity|].
    eapply Forall_impl; [exact Hplain|]. intros f. apply plain_no_hash.
  - apply remove_join; [reflexivity|].
    eapply Forall_impl; [exact Hplain|]. intros f. apply plain_remove.
Qed.

Lemma list_tests_value_not_escaped_witness :
  plain "final" = true /\ plain "receivedDateAsc" = true /\ plain "state" = true
  /\ plain "pending" = true /\ Str.contains "=" "state" = false
  /\ query_fields (list_tests_url "final" "" "" "receivedDateAsc&state=pending")
     = [("state", "final"); ("sort", "receivedDateAsc"); ("state", "pending")].
Proof.
  do 5 (split; [reflexivity|]).
  exact (list_tests_value_not_escaped "final" "" "" "receivedDateAsc" "state" "pending"
           eq_refl eq_refl eq_refl eq_refl eq_refl eq_refl eq_refl).
Defined.

(** ** Identifiers are not escaped *)

Lemma startswith_self c s : Str.startswith (String c "") (String c s) = true.
Proof.
  unfold Str.startswith. cbn [String.prefix].
  destruct (ascii_dec c c) as [_|Hne]; [|contradiction].
  destruct s; reflexivity.
Qed.

(** [urljoin] on a reference under [/v1/], in terms of the segments that
    the loop over its path leaves. *)
Lemma urljoin_v1_resolved rest query resolved path :
  Str.all path_char rest = true ->
  Str.contains "#" query = false ->
  Str.remove is_unsafe_url_byte query = query ->
  fold_left resolve_segment (Str.split "/" rest) ["v1"; ""] = resolved ->
  bool_decide (List.last ("" :: "v1" :: Str.split "/" rest) "" ∈ ["."; ".."]) = false ->
  Str.join "/" (List.rev resolved) = String "/" path ->
  urljoin BASE_URL ("/v1/" +:+ rest +:+ query_suffix query)
  = "https://api.ingenuity.com/" +:+ path +:+ query_suffix query.
Proof.
  intros Hrest Hhash Hsafe Hfold Hlast Hjoin. unfold urljoin.
  rewrite urlparse_base. cbv zeta.
  cbn [url_scheme url_netloc url_path url_params url_query url_fragment].
  rewrite (urlparse_v1 rest query Hrest Hhash Hsafe).
  cbn [url_scheme url_netloc url_path url_params url_query url_fragment].
  change (BASE_URL =? "") with false.
  change ("/v1/" +:+ rest +:+ query_suffix query =? "") with false.
  change (negb ("https" =? "https") || negb (bool_decide ("https" ∈ uses_relative)))
    with false.
  change (bool_decide ("https" ∈ uses_netloc)) with true.
  change (("/v1/" +:+ rest =? "") && ("" =? "")) with false.
  change (Str.startswith "/" ("/v1/" +:+ rest)) with true.
  cbn iota beta. cbn [negb andb String.eqb].
  change (Str.split "/" ("/v1/" +:+ rest)) with ("" :: "v1" :: Str.split "/" rest).
  cbn [fold_left]. change (resolve_segment (resolve_segment [] "") "v1") with ["v1"; ""].
  rewrite Hfold, Hlast, Hjoin.
  unfold urlunparse, urlunsplit, query_suffix.
  cbn [url_scheme url_netloc url_path url_params url_query url_fragment].
  destruct (query =? ""); cbn [negb String.eqb]; rewrite (startswith_self "/" path);
    [rewrite (app_nil_r_str path)|]; reflexivity.
Qed.

(** X17: the identifier goes into the path as it is, and [urljoin] resolves
    dot segments: an identifier that starts with [../] takes the status
    request out of [/v1/datapackages/], to [/v1/<the rest>]. *)
Theorem check_submission_status_dot_segment (w : World) (access_token name : string) :
  identifier name = true ->
  check_submission_status access_token ("../" +:+ name) w
  = (decoded (server w (sent w)
                (bearer_get ("https://api.ingenuity.com/v1/" +:+ name) access_token)),
     set_sent
       (sent w ++ [bearer_get ("https://api.ingenuity.com/v1/" +:+ name) access_token]) w).
Proof.
  intros (Hchars & Hsep & Hkept)%identifier_facts.
  unfold check_submission_status. cbv zeta.
  assert (Hurl : urljoin BASE_URL ("/v1/datapackages/" +:+ "../" +:+ name)
                 = "https://api.ingenuity.com/v1/" +:+ name).
  { assert (Hsplit : Str.split "/" ("datapackages/../" +:+ name)
                     = ["datapackages"; ".."; name]).
    { change ("datapackages/../" +:+ name)
        with ("datapackages" +:+ String "/" (".." +:+ String "/" name)).
      rewrite !split_sep_app, (split_none _ _ Hsep). reflexivity. }
    unfold kept_segment in Hkept. apply andb_true_iff in Hkept as [H1 H2].
    apply negb_true_iff in H1, H2.
    pose proof (urljoin_v1_resolved ("datapackages/../" +:+ name) ""
                  [name; "v1"; ""] ("v1/" +:+ name)) as H.
    unfold query_suffix in H. cbn [String.eqb] in H.
    rewrite !app_nil_r_str in H. apply H; try reflexivity.
    - rewrite all_app, Hchars. reflexivity.
    - rewrite Hsplit. cbn [fold_left].
      change (resolve_segment (resolve_segment ["v1"; ""] "datapackages") "..")
        with ["v1"; ""].
      unfold resolve_segment. rewrite H2, H1. reflexivity.
    - rewrite Hsplit. change (List.last ["" ; "v1"; "datapackages"; ".."; name] "")
        with name.
      apply bool_decide_eq_false_2. rewrite !elem_of_cons, elem_of_nil.
      intros [E|[E|[]]]; rewrite E in H1, H2; discriminate. }
  rewrite Hurl. apply get_json_run.
Qed.

Lemma check_submission_status_dot_segment_witness :
  identifier "testProductProfiles" = true
  /\ check_submission_status "8c1f0e" "../testProductProfiles" sample_world
     = get_test_product_profiles "8c1f0e" sample_world.
Proof.
  split; [reflexivity|].
  etransitivity;
    [exact (check_submission_status_dot_segment sample_world "8c1f0e"
              "testProductProfiles" eq_refl)|].
  reflexivity.
Defined.
